(** * Whisper transcription tool (app.py): a shallow embedding and its properties

    The Streamlit script [app.py] is embedded as follows.

    - Python strings are [string]s (byte strings, UTF-8 for the literals),
      [bytes] are [list byte], [dict]s with string keys are [gmap string _].
    - The floats of the script are seconds returned by Whisper.  A finite
      binary64 number is a rational, and the two operations the script
      applies to it, [divmod(_, 60)] and the [.3f] conversion, are computed
      by CPython from that rational ([fmod] is exact, the conversion is
      correctly rounded, ties to even).  Below 2^55 seconds no step of
      [divmod] rounds: there the seconds of a segment are [Q] and both
      operations are the exact ones ([format_timestamp]).  The module
      [Float] has the binary64 numbers with their rounding, infinities and
      NaN, and [Float.format_timestamp] is the function on all of them.
    - Effects (the widgets rendered, the calls to [os], [tempfile] and
      Whisper, the file system, the cache of [st.cache_resource], raised
      exceptions) are threaded through a state-and-exception monad [M]. *)

From Stdlib Require Import ZArith QArith Qround Qabs Qpower Ascii String List Lia.
From Stdlib.Strings Require Import Byte.
From stdpp Require Import gmap strings list.

Local Open Scope string_scope.
Local Open Scope list_scope.
Local Open Scope Z_scope.

(** ** Python strings *)

Module Py.

(** [s.split(sep)] for a one-character separator: never an empty list. *)
Fixpoint split (sep : ascii) (s : string) : list string :=
  match s with
  | EmptyString => [EmptyString]
  | String c s' =>
      if Ascii.eqb c sep then EmptyString :: split sep s'
      else match split sep s' with
           | [] => [String c EmptyString]
           | w :: ws => String c w :: ws
           end
  end.

(** [l[-1]] on a list of strings ([IndexError] cannot happen after [split]). *)
Definition last_item (l : list string) : string := List.last l EmptyString.

Definition lower_char (c : ascii) : ascii :=
  let n := nat_of_ascii c in
  if (65 <=? n)%nat && (n <=? 90)%nat then ascii_of_nat (n + 32) else c.

(** What [s.lower()] yields for a string [s] of ASCII characters.  The
    case mapping of the other characters is a table of the interpreter: the
    script's [lower] is the field [str_lower] of a host, and the hosts of
    [Demo] use this function, on ASCII names. *)
Fixpoint lower_ascii (s : string) : string :=
  match s with
  | EmptyString => EmptyString
  | String c s' => String (lower_char c) (lower_ascii s')
  end.

(** [c in s] for a character [c]. *)
Fixpoint contains (c : ascii) (s : string) : bool :=
  match s with
  | EmptyString => false
  | String c' s' => Ascii.eqb c' c || contains c s'
  end.

(** [s.endswith(suffix)] *)
Definition endswith (s suffix : string) : bool :=
  (String.length suffix <=? String.length s)%nat &&
  String.eqb (substring (String.length s - String.length suffix) (String.length suffix) s)
    suffix.

(** Truthiness of a string: [if s:]. *)
Definition truthy (s : string) : bool :=
  match s with EmptyString => false | _ => true end.

(** *** Decimal output *)

Definition digit_char (d : Z) : ascii := ascii_of_nat (48 + Z.to_nat d).

Fixpoint decimal_digits (fuel : nat) (n : Z) : string :=
  match fuel with
  | O => EmptyString
  | S fuel' =>
      if n <? 10 then String (digit_char n) EmptyString
      else decimal_digits fuel' (n / 10) +:+ String (digit_char (n mod 10)) EmptyString
  end.

(** [str(n)] for [0 <= n]. *)
Definition str_nat (n : Z) : string := decimal_digits (S (Z.to_nat (Z.log2 n))) n.

Fixpoint zeros (k : nat) : string :=
  match k with O => EmptyString | S k' => String "0"%char (zeros k') end.

(** Left padding with ['0'] up to [width] characters. *)
Definition zfill (width : nat) (s : string) : string :=
  zeros (width - String.length s) +:+ s.

(** [f"{n:0Wd}"]: the sign first, zeros between the sign and the digits. *)
Definition format_d (width : nat) (n : Z) : string :=
  if n <? 0 then String "-"%char (zfill (width - 1) (str_nat (- n)))
  else zfill width (str_nat n).

(** Rounding to the nearest integer, ties to the even one. *)
Definition round_half_even (x : Q) : Z :=
  let d := Zpos (Qden x) in
  let q := Qnum x / d in
  let r := Qnum x mod d in
  if 2 * r <? d then q
  else if d <? 2 * r then q + 1
  else if Z.even q then q else q + 1.

(** [f"{x:0W.Pf}"]: [P] decimals of the correctly rounded magnitude, the
    sign of [x] first, zeros up to [W] characters. *)
Definition format_f (width prec : nat) (x : Q) : string :=
  let scale := 10 ^ Z.of_nat prec in
  let n := round_half_even (Qabs x * inject_Z scale) in
  let body :=
    str_nat (n / scale) +:+
    match prec with
    | O => EmptyString
    | _ => String "."%char (zfill prec (str_nat (n mod scale)))
    end in
  if Qlt_le_dec x 0 then String "-"%char (zfill (width - 1) body)
  else zfill width body.

(** [divmod(x, y)] in exact arithmetic: the floor of the quotient and the
    remainder.  For floats with rounding see [Float.div_mod]. *)
Definition divmod (x y : Q) : Q * Q :=
  let q := inject_Z (Qfloor (x / y)) in (q, (x - q * y)%Q).

(** [int(x)] on a float: truncation towards zero. *)
Definition int (x : Q) : Z := Z.quot (Qnum x) (Zpos (Qden x)).

End Py.

(** ** The timestamp of a segment (app.py, lines 201-204)

    In exact arithmetic, as the float computation is for the seconds of a
    recording (below 2^55); [Float.format_timestamp] is the function on all
    floats. *)

Definition format_timestamp (seconds : Q) : string :=
  let '(m, s) := Py.divmod seconds 60 in
  let '(h, m) := Py.divmod m 60 in
  Py.format_d 2 (Py.int h) +:+ ":" +:+ Py.format_d 2 (Py.int m) +:+ ":" +:+ Py.format_f 6 3 s.

(** ** Exceptions *)

Inductive exc_class :=
  | RuntimeError | ValueError | OSError | FileNotFoundError | FileExistsError
  | OtherException (class_name : string)
  | KeyboardInterrupt | SystemExit | GeneratorExit
  | StopException.

(** A raised exception: its class and [str(e)]. *)
Record exc := Exc { exc_type : exc_class; exc_str : string }.

(** [isinstance(e, Exception)]: what [except Exception] catches.  The classes
    that derive from [BaseException] only are the interpreter's
    [KeyboardInterrupt], [SystemExit] and [GeneratorExit], and the
    script-control exception behind [st.stop()]. *)
Definition isinstance_Exception (e : exc) : bool :=
  match exc_type e with
  | KeyboardInterrupt | SystemExit | GeneratorExit | StopException => false
  | _ => true
  end.

Inductive result (A : Type) :=
  | Ok (a : A)
  | Raise (e : exc).
Arguments Ok {A} a.
Arguments Raise {A} e.

(** ** Floats (binary64)

    [float] of Python is the binary64 format.  A finite value is held as the
    rational it denotes; the sign of a zero is not kept, since no result of
    [format_timestamp] depends on it (the remainder of [divmod] by 60 is
    never a negative zero, and [int] of either zero is 0). *)

Module Float.

Inductive t : Type :=
  | Finite (q : Q)
  | Infinity (negative : bool)
  | NaN.

Definition pow2 (e : Z) : Q := (2 ^ e)%Q.

(** [sys.float_info.max], the largest finite value: (2^53 - 1) 2^971. *)
Definition max_float : Q := inject_Z (2 ^ 1024 - 2 ^ 971).

(** The integer part of the binary logarithm of [0 < q]. *)
Definition ilog2 (q : Q) : Z :=
  if Qle_bool 1 q then Z.log2 (Qfloor q) else - Z.log2_up (Qceiling (/ q)).

(** The exponent of the unit in the last place at [q]: 53 significant bits,
    and the subnormal numbers below 2^-1022. *)
Definition exponent (q : Q) : Z := Z.max (ilog2 (Qabs q) - 52) (-1074).

(** The binary64 value of a real result: the nearest multiple of the unit
    in the last place, ties to the even one, and an infinity from 2^1024. *)
Definition round (q : Q) : t :=
  let a := Qabs q in
  let e := exponent q in
  let r := (inject_Z (Py.round_half_even (a / pow2 e)) * pow2 e)%Q in
  let negative := negb (Qle_bool 0 q) in
  if Qeq_bool q 0 then Finite 0
  else if Qle_bool (pow2 1024) r then Infinity negative
  else Finite (if negative then (- r)%Q else r).

(** *** The operations of C that [float_divmod] uses *)

Definition opp (x : t) : t :=
  match x with
  | Finite a => Finite (- a)
  | Infinity s => Infinity (negb s)
  | NaN => NaN
  end.

Definition add (x y : t) : t :=
  match x, y with
  | NaN, _ | _, NaN => NaN
  | Finite a, Finite b => round (a + b)
  | Infinity s, Finite _ | Finite _, Infinity s => Infinity s
  | Infinity s, Infinity s' => if Bool.eqb s s' then Infinity s else NaN
  end.

Definition sub (x y : t) : t := add x (opp y).

(** [x < 0] *)
Definition lt_0 (x : t) : bool :=
  match x with
  | Finite a => negb (Qle_bool 0 a)
  | Infinity s => s
  | NaN => false
  end.

(** [x / y].  A division by zero has the value NaN here: [float_divmod]
    raises [ZeroDivisionError] before it divides by zero, and the divisor of
    the script is 60. *)
Definition div (x y : t) : t :=
  match x, y with
  | NaN, _ | _, NaN => NaN
  | Finite a, Finite b => if Qeq_bool b 0 then NaN else round (a / b)
  | Finite _, Infinity _ => Finite 0
  | Infinity s, Finite b => if Qeq_bool b 0 then NaN else Infinity (xorb s (lt_0 y))
  | Infinity _, Infinity _ => NaN
  end.

(** [fmod(x, y)]: exact, with the sign of [x]. *)
Definition fmod (x y : t) : t :=
  match x, y with
  | Finite a, Finite b =>
      if Qeq_bool b 0 then NaN else Finite (a - inject_Z (Py.int (a / b)) * b)
  | Finite a, Infinity _ => Finite a
  | _, _ => NaN
  end.

(** [floor(x)]: the result is an integer, hence a binary64 number. *)
Definition floor (x : t) : t :=
  match x with
  | Finite a => Finite (inject_Z (Qfloor a))
  | _ => x
  end.

(** The truth value of [x] in C: [if (x)]. *)
Definition nonzero (x : t) : bool :=
  match x with
  | Finite a => negb (Qeq_bool a 0)
  | _ => true
  end.

(** [x > y]: false when either is NaN. *)
Definition gt (x y : t) : bool :=
  match x, y with
  | NaN, _ | _, NaN => false
  | Finite a, Finite b => negb (Qle_bool a b)
  | Infinity s, Finite _ => negb s
  | Finite _, Infinity s => s
  | Infinity s, Infinity s' => negb s && s'
  end.

(** [_float_div_mod] of CPython (Objects/floatobject.c), which
    [divmod(vx, wx)] returns as a pair for floats when [wx] is not zero:
    [(floordiv, mod)]. *)
Definition div_mod (vx wx : t) : t * t :=
  let md := fmod vx wx in
  let dv := div (sub vx md) wx in
  let '(md, dv) :=
    if nonzero md then
      if negb (Bool.eqb (lt_0 wx) (lt_0 md)) then (add md wx, sub dv (Finite 1))
      else (md, dv)
    else (Finite 0, dv) in
  let floordiv :=
    if nonzero dv then
      let floordiv := floor dv in
      if gt (sub dv floordiv) (Finite (1 # 2)) then add floordiv (Finite 1) else floordiv
    else Finite 0 in
  (floordiv, md).

(** [int(x)]: truncation; an infinity and NaN have no integer. *)
Definition int (x : t) : result Z :=
  match x with
  | Finite a => Ok (Py.int a)
  | Infinity _ =>
      Raise (Exc (OtherException "OverflowError") "cannot convert float infinity to integer")
  | NaN => Raise (Exc ValueError "cannot convert float NaN to integer")
  end.

(** [f"{x:0W.Pf}"] *)
Definition format_f (width prec : nat) (x : t) : string :=
  match x with
  | Finite a => Py.format_f width prec a
  | Infinity false => Py.zfill width "inf"
  | Infinity true => String "-"%char (Py.zfill (width - 1) "inf")
  | NaN => Py.zfill width "nan"
  end.

(** [format_timestamp] (app.py, lines 201-204) on floats.  The divisor is
    the float 60.0; the fields of the f-string are evaluated from left to
    right, so [int(h)] is the first to raise. *)
Definition format_timestamp (seconds : t) : result string :=
  let '(m, s) := div_mod seconds (Finite 60) in
  let '(h, m) := div_mod m (Finite 60) in
  match int h with
  | Raise e => Raise e
  | Ok h' =>
      match int m with
      | Raise e => Raise e
      | Ok m' =>
          Ok (Py.format_d 2 h' +:+ ":" +:+ Py.format_d 2 m' +:+ ":" +:+ format_f 6 3 s)
      end
  end.

End Float.

(** ** Data *)

(** The object [st.file_uploader] returns ([size] is the length of the value). *)
Record UploadedFile := { name : string; getvalue : list byte }.

(** What [Model.transcribe] returns: [result["text"]] and [result["segments"]],
    each segment with ["start"], ["end"] and ["text"]. *)
Record Segment := { seg_start : Q; seg_end : Q; seg_text : string }.
Record Transcription := { text : string; segments : list Segment }.

Abbreviation FileSystem := (gmap string (list byte)).

(** The widgets the script renders.  A widget carries its data where the
    script computes it; static labels and help texts are left out. *)
Inductive widget :=
  | Title | Markdown | Header | Subheader | Columns | Tabs | Expander | Spinner
  | Selectbox (options : list string)
  | InfoBox | WarningBox | SuccessBox
  | ErrorBox (body : string)
  | FileUploader (type : list string)
  | Video (data : UploadedFile)
  | Audio (data : UploadedFile) (format : string)
  | Button
  | TextArea (value : string)
  | Dataframe (data : list (gmap string string))
  | DownloadButton (data : string).

(** The calls that leave the script. *)
Inductive call :=
  | OsSystem (command : string)
  | NamedTemporaryFile (path : string)
  | WhisperLoadModel (model_name device : string)
  | ModelTranscribe (audio : string) (kwargs : gmap string string)
  | OsUnlink (path : string).

Inductive event :=
  | Render (w : widget)
  | Call (c : call).

Section App.

(** The object [whisper.load_model] returns. *)
Context {Model : Type}.

(** The host the script runs on, and the external collaborators.  A
    collaborator may change the file system (Whisper downloads weights, the
    media tool reads the temporary file) and may raise. *)
Record Env := {
  os_system : string -> FileSystem -> Z * FileSystem;
  cuda_is_available : bool;
  whisper_load_model : string -> string -> FileSystem -> result Model * FileSystem;
  model_transcribe :
    Model -> string -> gmap string string -> FileSystem -> result Transcription * FileSystem;
  (** [tempfile]: the directory (with its separator) and the random names
      [mkstemp] tries, in order *)
  gettempdir : string;
  candidate_names : list string;
  (** [str.lower]: the case mapping of the interpreter's Unicode tables *)
  str_lower : string -> string
}.

(** The values the widgets return in one run of the script. *)
Record Session := {
  model_option : string;
  language_option : string;
  uploaded_file : option UploadedFile;
  transcribe_button : bool
}.

(** The state of the process: the files, the models held by
    [st.cache_resource], and what happened so far. *)
Record world := World {
  files : FileSystem;
  cache : gmap string Model;
  trace : list event
}.

Definition M (A : Type) : Type := world -> result A * world.

#[global] Instance M_ret : MRet M := fun A a w => (Ok a, w).
#[global] Instance M_bind : MBind M := fun A B f m w =>
  match m w with
  | (Ok a, w') => f a w'
  | (Raise e, w') => (Raise e, w')
  end.

Definition raise {A} (e : exc) : M A := fun w => (Raise e, w).

Definition emit (e : event) : M unit :=
  fun w => (Ok tt, World (files w) (cache w) (trace w ++ [e])).

Definition render (x : widget) : M unit := emit (Render x).

(** [try: body / except Exception as e: handler e] *)
Definition try_except_Exception {A} (body : M A) (handler : exc -> M A) : M A :=
  fun w =>
    match body w with
    | (Ok a, w') => (Ok a, w')
    | (Raise e, w') => if isinstance_Exception e then handler e w' else (Raise e, w')
    end.

(** [try: body / finally: final]: [final] runs on every way out of [body];
    an exception of [final] replaces the outcome of [body]. *)
Definition try_finally {A} (body : M A) (final : M unit) : M A :=
  fun w =>
    match body w with
    | (r, w') =>
        match final w' with
        | (Ok _, w'') => (r, w'')
        | (Raise e, w'') => (Raise e, w'')
        end
    end.

Variable env : Env.
Variable session : Session.

(** *** The libraries *)

(** [st.stop()] ends the run by raising the script-control exception. *)
Definition st_stop {A} : M A := raise (Exc StopException "").

Definition st_error (body : string) : M unit := render (ErrorBox body).

Definition st_selectbox (options : list string) (value : string) : M string :=
  render (Selectbox options);; mret value.

Definition st_file_uploader (type : list string) : M (option UploadedFile) :=
  render (FileUploader type);; mret (uploaded_file session).

Definition st_button : M bool :=
  render Button;; mret (transcribe_button session).

(** [os.system(command)]: the exit status. *)
Definition py_os_system (command : string) : M Z :=
  fun w =>
    let '(status, fs) := os_system env command (files w) in
    (Ok status, World fs (cache w) (trace w ++ [Call (OsSystem command)])).

(** [mkstemp]: the first candidate that is not taken (the file is opened
    with [O_EXCL]); [FileExistsError] when every candidate is taken. *)
Fixpoint mkstemp_inner (fs : FileSystem) (dir pre suf : string) (names : list string)
  : option string :=
  match names with
  | [] => None
  | n :: names' =>
      let file := dir +:+ pre +:+ n +:+ suf in
      match fs !! file with
      | None => Some file
      | Some _ => mkstemp_inner fs dir pre suf names'
      end
  end.

(** [tempfile.NamedTemporaryFile(delete=False, suffix=suffix)]: creates the
    empty file and returns its [name]. *)
Definition named_temporary_file (suffix : string) : M string :=
  fun w =>
    match mkstemp_inner (files w) (gettempdir env) "tmp" suffix (candidate_names env) with
    | Some path =>
        (Ok path,
         World (<[path := []]> (files w)) (cache w)
               (trace w ++ [Call (NamedTemporaryFile path)]))
    | None =>
        (Raise (Exc FileExistsError "[Errno 17] No usable temporary file name found"), w)
    end.

(** [tmp_file.write(data)] on the file just created.  The write itself is
    taken to succeed: a write that raises (a full disk) would leave the file
    of [delete=False] behind, before the [try] block is entered. *)
Definition file_write (path : string) (data : list byte) : M unit :=
  fun w =>
    (Ok tt,
     World (<[path := default [] (files w !! path) ++ data]> (files w)) (cache w) (trace w)).

Definition os_path_exists (path : string) : M bool :=
  fun w => (Ok (bool_decide (is_Some (files w !! path))), w).

(** [os.unlink(path)]: [FileNotFoundError] when there is no such file. *)
Definition os_unlink (path : string) : M unit :=
  fun w =>
    let w' := World (files w) (cache w) (trace w ++ [Call (OsUnlink path)]) in
    match files w !! path with
    | Some _ => (Ok tt, World (delete path (files w)) (cache w) (trace w'))
    | None => (Raise (Exc FileNotFoundError path), w')
    end.

(** Modelled from the spec: the decorator [st.cache_resource] of the
    Streamlit library, which is not part of the repository (section 4.1,
    "resolve a cached model instance for the requested size, loading it on
    first use (process-wide cache keyed by size; cache is never invalidated
    or evicted)").  A call that raises stores nothing. *)
Definition st_cache_resource (f : string -> M Model) (arg : string) : M Model :=
  fun w =>
    match cache w !! arg with
    | Some m => (Ok m, w)
    | None =>
        match f arg w with
        | (Ok m, w') => (Ok m, World (files w') (<[arg := m]> (cache w')) (trace w'))
        | (Raise e, w') => (Raise e, w')
        end
    end.

(** [whisper.load_model(name, device=device)] *)
Definition py_whisper_load_model (model_name device : string) : M Model :=
  fun w =>
    let '(r, fs) := whisper_load_model env model_name device (files w) in
    (r, World fs (cache w) (trace w ++ [Call (WhisperLoadModel model_name device)])).

(** [model.transcribe(audio, **kwargs)] *)
Definition py_model_transcribe (model : Model) (audio : string) (kwargs : gmap string string)
  : M Transcription :=
  fun w =>
    let '(r, fs) := model_transcribe env model audio kwargs (files w) in
    (r, World fs (cache w) (trace w ++ [Call (ModelTranscribe audio kwargs)])).

(** *** app.py *)

(** The body of [load_whisper_model], lines 54-55. *)
Definition load_whisper_model_body (model_name : string) : M Model :=
  let device := if cuda_is_available env then "cuda" else "cpu" in
  py_whisper_load_model model_name device.

(** [@st.cache_resource def load_whisper_model(model_name)], lines 51-55. *)
Definition load_whisper_model : string -> M Model :=
  st_cache_resource load_whisper_model_body.

Definition ffmpeg_command : string := "ffmpeg -version > NUL 2>&1".

Definition ffmpeg_missing_message : string :=
  "⚠️ FFmpegがインストールされていません。https://ffmpeg.org/download.html からダウンロードして、パスを通してください。".

(** [check_ffmpeg], lines 57-61. *)
Definition check_ffmpeg : M unit :=
  status ← py_os_system ffmpeg_command;
  if negb (status =? 0) then
    st_error ffmpeg_missing_message;;
    st_stop
  else mret tt.

(** [get_available_models], lines 63-65. *)
Definition get_available_models : list string :=
  ["tiny"; "base"; "small"; "medium"; "large"].

Definition language_options : list string :=
  [""; "ja"; "en"; "zh"; "de"; "fr"; "es"; "ko"; "ru"].

Definition upload_types : list string :=
  ["mp3"; "wav"; "m4a"; "ogg"; "flac"; "mp4"; "mov"; "mkv"; "webm"].

Definition video_extensions : list string := ["mp4"; "mov"; "mkv"; "webm"].

(** Line 135: [uploaded_file.name.split('.')[-1].lower()]. *)
Definition file_ext_of (f : UploadedFile) : string :=
  str_lower env (Py.last_item (Py.split "." (name f))).

(** The preview, lines 137-147. *)
Definition preview (f : UploadedFile) (file_ext : string) : M unit :=
  render Subheader;;
  render InfoBox;;
  if bool_decide (file_ext ∈ video_extensions) then render (Video f)
  else render (Audio f ("audio/" +:+ file_ext)).

(** One line of the timestamped transcript, line 214. *)
Definition timestamp_line (start_fmt end_fmt text : string) : string :=
  "[" +:+ start_fmt +:+ " --> " +:+ end_fmt +:+ "] " +:+ text +:+ String "010"%char "".

(** The loop over [result["segments"]], lines 193-214: one step appends a row
    to [table_data] and a line to [timestamp_text]. *)
Definition segment_step (acc : list (gmap string string) * string) (segment : Segment)
  : list (gmap string string) * string :=
  let '(table_data, timestamp_text) := acc in
  let start := seg_start segment in
  let end_ := seg_end segment in
  let text := seg_text segment in
  let start_fmt := format_timestamp start in
  let end_fmt := format_timestamp end_ in
  (table_data ++ [ {[ "開始" := start_fmt; "終了" := end_fmt; "テキスト" := text ]} ],
   timestamp_text +:+ timestamp_line start_fmt end_fmt text).

Definition segments_loop (segs : list Segment) : list (gmap string string) * string :=
  fold_left segment_step segs ([], "").

(** The language option of the call, lines 172-174. *)
Definition transcribe_options (language_option : string) : gmap string string :=
  let options := ∅ in
  if Py.truthy language_option then <["language" := language_option]> options
  else options.

(** The [try] block, lines 163-233. *)
Definition transcribe_and_show (temp_filename model_option language_option : string)
  : M unit :=
  model ← load_whisper_model model_option;
  let options := transcribe_options language_option in
  result ← py_model_transcribe model temp_filename options;
  render SuccessBox;;
  render Tabs;;
  render (TextArea (text result));;
  let '(table_data, timestamp_text) := segments_loop (segments result) in
  render (Dataframe table_data);;
  render Columns;;
  render (DownloadButton (text result));;
  render (DownloadButton timestamp_text).

Definition error_message (e : exc) : string :=
  "❌ エラーが発生しました: " +:+ exc_str e.

(** The [finally] block, lines 238-241. *)
Definition cleanup (temp_filename : string) : M unit :=
  there ← os_path_exists temp_filename;
  if there : bool then os_unlink temp_filename else mret tt.

(** The [with tempfile.NamedTemporaryFile(...)] block, lines 158-160. *)
Definition persist (f : UploadedFile) (file_ext : string) : M string :=
  tmp_file ← named_temporary_file ("." +:+ file_ext);
  file_write tmp_file (getvalue f);;
  mret tmp_file.

(** What the button starts, lines 158-241. *)
Definition transcription_request
  (f : UploadedFile) (file_ext model_option language_option : string) : M unit :=
  temp_filename ← persist f file_ext;
  try_finally
    (try_except_Exception
       (transcribe_and_show temp_filename model_option language_option)
       (fun e => st_error (error_message e)))
    (cleanup temp_filename).

(** The [with st.sidebar:] block, lines 81-120: the two options chosen. *)
Definition sidebar : M (string * string) :=
  render Header;;
  model_option ← st_selectbox get_available_models (model_option session);
  language_option ← st_selectbox language_options (language_option session);
  render Markdown;;
  let device := if cuda_is_available env then "GPU (CUDA)" else "CPU" in
  render InfoBox;;
  (if String.eqb device "CPU" then render WarningBox else mret tt);;
  render Markdown;;
  render Markdown;;
  mret (model_option, language_option).

(** The page below the sidebar, lines 122-252. *)
Definition content (model_option language_option : string) : M unit :=
  render Columns;;
  render Subheader;;
  uploaded_file ← st_file_uploader upload_types;
  match uploaded_file with
  | Some f =>
      let file_ext := file_ext_of f in
      preview f file_ext;;
      render Markdown;;
      transcribe_button ← st_button;
      if transcribe_button : bool then
        render Spinner;;
        transcription_request f file_ext model_option language_option
      else mret tt
  | None =>
      render InfoBox;;
      render Expander;;
      render Markdown
  end.

(** [main], lines 67-252. *)
Definition main : M unit :=
  render Title;;
  render Markdown;;
  check_ffmpeg;;
  options ← sidebar;
  content options.1 options.2.

(** *** Vocabulary of the properties *)

Definition device_name : string := if cuda_is_available env then "cuda" else "cpu".

(** What the [try] block renders once [model.transcribe] has returned. *)
Definition result_widgets (result : Transcription) : list event :=
  [ Render SuccessBox; Render Tabs; Render (TextArea (text result));
    Render (Dataframe (segments_loop (segments result)).1);
    Render Columns;
    Render (DownloadButton (text result));
    Render (DownloadButton (segments_loop (segments result)).2) ].

(** The load step or the transcribe step of a request, started in [w] on
    the file [temp_filename], raises [e] and leaves the world [w']. *)
Definition capability_raises
  (temp_filename model_option language_option : string) (w : world) (e : exc) (w' : world)
  : Prop :=
  load_whisper_model model_option w = (Raise e, w') \/
  exists model w1,
    load_whisper_model model_option w = (Ok model, w1) /\
    py_model_transcribe model temp_filename (transcribe_options language_option) w1
      = (Raise e, w').

End App.

(** An action only adds to the trace and to the cache. *)
Definition grows {Model A : Type} (m : @M Model A) : Prop :=
  forall w,
    (forall (k : string) v, cache w !! k = Some v -> cache (m w).2 !! k = Some v) /\
    exists l, trace (m w).2 = trace w ++ l.

Arguments Env : clear implicits.
Arguments world : clear implicits.
Arguments M : clear implicits.

(** ** Runs on a concrete host *)

Module Demo.

Definition a_b : Transcription :=
  {| text := "a b";
     segments := [ {| seg_start := 0; seg_end := 1; seg_text := "a" |};
                   {| seg_start := 1; seg_end := 5 # 2; seg_text := "b" |} ] |}.

(** A host with the media tool, where loading and transcribing succeed; the
    model object is the pair of its name and device. *)
Definition host : Env (string * string) :=
  {| os_system := fun _ fs => (0, fs);
     cuda_is_available := false;
     whisper_load_model := fun n d fs => (Ok (n, d), fs);
     model_transcribe := fun _ _ _ fs => (Ok a_b, fs);
     gettempdir := "/tmp/";
     candidate_names := ["abcd1234"; "efgh5678"];
     str_lower := Py.lower_ascii |}.

(** The same host when the transcription fails on the file. *)
Definition failing_host : Env (string * string) :=
  {| os_system := fun _ fs => (0, fs);
     cuda_is_available := false;
     whisper_load_model := fun n d fs => (Ok (n, d), fs);
     model_transcribe := fun _ _ _ fs => (Raise (Exc RuntimeError "Failed to load audio"), fs);
     gettempdir := "/tmp/";
     candidate_names := ["abcd1234"; "efgh5678"];
     str_lower := Py.lower_ascii |}.

(** The same host when the load is interrupted from the keyboard. *)
Definition interrupted_host : Env (string * string) :=
  {| os_system := fun _ fs => (0, fs);
     cuda_is_available := false;
     whisper_load_model := fun _ _ fs => (Raise (Exc KeyboardInterrupt ""), fs);
     model_transcribe := fun _ _ _ fs => (Ok a_b, fs);
     gettempdir := "/tmp/";
     candidate_names := ["abcd1234"; "efgh5678"];
     str_lower := Py.lower_ascii |}.

(** The same host when the weights of the model cannot be fetched. *)
Definition offline_host : Env (string * string) :=
  {| os_system := fun _ fs => (0, fs);
     cuda_is_available := false;
     whisper_load_model := fun _ _ fs => (Raise (Exc RuntimeError "download failed"), fs);
     model_transcribe := fun _ _ _ fs => (Ok a_b, fs);
     gettempdir := "/tmp/";
     candidate_names := ["abcd1234"; "efgh5678"];
     str_lower := Py.lower_ascii |}.

(** A host without the media tool: the probe exits with status 1. *)
Definition bare_host : Env (string * string) :=
  {| os_system := fun _ fs => (1, fs);
     cuda_is_available := false;
     whisper_load_model := fun n d fs => (Ok (n, d), fs);
     model_transcribe := fun _ _ _ fs => (Ok a_b, fs);
     gettempdir := "/tmp/";
     candidate_names := ["abcd1234"; "efgh5678"];
     str_lower := Py.lower_ascii |}.

Definition talk : UploadedFile := {| name := "Talk.MP3"; getvalue := ["x"%byte; "y"%byte] |}.

Definition click : Session :=
  {| model_option := "base"; language_option := "ja";
     uploaded_file := Some talk; transcribe_button := true |}.

Definition start : world (string * string) := World ∅ ∅ [].

(** The page with the file chosen and the button not pressed, and the page
    without a file. *)
Definition chosen : Session :=
  {| model_option := "base"; language_option := "ja";
     uploaded_file := Some talk; transcribe_button := false |}.

Definition idle : Session :=
  {| model_option := "base"; language_option := "ja";
     uploaded_file := None; transcribe_button := false |}.

(** A host whose two candidate names are taken. *)
Definition crowded : world (string * string) :=
  World {[ "/tmp/tmpabcd1234.mp3" := []; "/tmp/tmpefgh5678.mp3" := [] ]} ∅ [].

End Demo.


(** ** Reading a decimal field *)

Definition is_digit (c : ascii) : bool :=
  let n := nat_of_ascii c in (48 <=? n)%nat && (n <=? 57)%nat.

Fixpoint all_digits (s : string) : bool :=
  match s with
  | EmptyString => true
  | String c s' => is_digit c && all_digits s'
  end.

Definition digit_value (c : ascii) : Z := Z.of_nat (nat_of_ascii c) - 48.

Fixpoint digits_value_from (acc : Z) (s : string) : Z :=
  match s with
  | EmptyString => acc
  | String c s' => digits_value_from (10 * acc + digit_value c) s'
  end.

(** The number a string of decimal digits denotes. *)
Definition digits_value (s : string) : Z := digits_value_from 0 s.

(** ** Reading a trace *)

Definition load_calls (l : list event) : list (string * string) :=
  omap (fun e => match e with
                 | Call (WhisperLoadModel n d) => Some (n, d)
                 | _ => None
                 end) l.

Definition transcribe_calls (l : list event) : list (string * gmap string string) :=
  omap (fun e => match e with
                 | Call (ModelTranscribe a kw) => Some (a, kw)
                 | _ => None
                 end) l.

Definition unlink_calls (l : list event) : list string :=
  omap (fun e => match e with
                 | Call (OsUnlink p) => Some p
                 | _ => None
                 end) l.

Definition error_boxes (l : list event) : list string :=
  omap (fun e => match e with
                 | Render (ErrorBox body) => Some body
                 | _ => None
                 end) l.

Definition upload_controls (l : list event) : list (list string) :=
  omap (fun e => match e with
                 | Render (FileUploader t) => Some t
                 | _ => None
                 end) l.

Definition calls (l : list event) : list call :=
  omap (fun e => match e with
                 | Call c => Some c
                 | _ => None
                 end) l.

(** The widgets of the result tabs (lines 183-233) in a trace. *)
Definition results_shown (l : list event) : list widget :=
  omap (fun e => match e with
                 | Render SuccessBox => Some SuccessBox
                 | Render Tabs => Some Tabs
                 | Render (TextArea v) => Some (TextArea v)
                 | Render (Dataframe d) => Some (Dataframe d)
                 | Render (DownloadButton d) => Some (DownloadButton d)
                 | _ => None
                 end) l.

Definition buttons (l : list event) : list widget :=
  omap (fun e => match e with
                 | Render Button => Some Button
                 | _ => None
                 end) l.

Definition expanders (l : list event) : list widget :=
  omap (fun e => match e with
                 | Render Expander => Some Expander
                 | _ => None
                 end) l.

Definition warnings (l : list event) : list widget :=
  omap (fun e => match e with
                 | Render WarningBox => Some WarningBox
                 | _ => None
                 end) l.

(** ** The labels of the language options (app.py, lines 97-107) *)

(** The dictionary of the [format_func] of the language selectbox. *)
Definition language_names : gmap string string :=
  {[ "" := "自動検出"; "en" := "英語"; "ja" := "日本語"; "zh" := "中国語";
     "de" := "ドイツ語"; "fr" := "フランス語"; "es" := "スペイン語";
     "ko" := "韓国語"; "ru" := "ロシア語" ]}.

(** [lambda x: {...}.get(x, x)] *)
Definition format_func (x : string) : string := default x (language_names !! x).

(** ** Reading a timestamp back *)

(** The seconds that the fields of [hh:mm:ss.fff] denote. *)
Definition timestamp_seconds (hh mm ss fff : string) : Q :=
  (inject_Z (3600 * digits_value hh + 60 * digits_value mm + digits_value ss)
   + (digits_value fff # 1000))%Q.

(** ** The events of a request *)

(** How the [try] block of a request went. *)
Inductive request_outcome :=
  | LoadFailed (e : exc)
  | TranscribeFailed (e : exc)
  | Transcribed (result : Transcription).

(** What the handler of line 235 adds for [e]. *)
Definition handler_events (e : exc) : list event :=
  if isinstance_Exception e
  then [Render (ErrorBox ("❌ エラーが発生しました: " +:+ exc_str e))]
  else [].

Definition outcome_events (tmp : string) (kwargs : gmap string string) (o : request_outcome)
  : list event :=
  match o with
  | LoadFailed e => handler_events e
  | TranscribeFailed e => Call (ModelTranscribe tmp kwargs) :: handler_events e
  | Transcribed result => Call (ModelTranscribe tmp kwargs) :: result_widgets result
  end.

Definition outcome_result (o : request_outcome) : result unit :=
  match o with
  | Transcribed _ => Ok tt
  | LoadFailed e | TranscribeFailed e => if isinstance_Exception e then Ok tt else Raise e
  end.

(** The events of a request whose persist step returned [tmp]: the
    temporary file, the load when the cache had no entry, the [try] block and
    its handler, and the removal when the file was still there. *)
Definition request_events
  (tmp model_option device language_option : string)
  (loaded : bool) (o : request_outcome) (unlinked : bool) : list event :=
  [Call (NamedTemporaryFile tmp)] ++
  (if loaded then [Call (WhisperLoadModel model_option device)] else []) ++
  outcome_events tmp
    (if decide (language_option = "") then ∅ else {[ "language" := language_option ]}) o ++
  (if unlinked then [Call (OsUnlink tmp)] else []).

(** The events of the sidebar (lines 81-120) on a host with or without CUDA. *)
Definition sidebar_events (cuda : bool) : list event :=
  [Render Header;
   Render (Selectbox ["tiny"; "base"; "small"; "medium"; "large"]);
   Render (Selectbox [""; "ja"; "en"; "zh"; "de"; "fr"; "es"; "ko"; "ru"]);
   Render Markdown; Render InfoBox] ++
  (if cuda then [] else [Render WarningBox]) ++
  [Render Markdown; Render Markdown].

(** The events of a run up to the probe, of the upload column, of the
    preview column for the file [f], and of the hint shown without a file. *)
Definition opening_events : list event :=
  [Render Title; Render Markdown; Call (OsSystem "ffmpeg -version > NUL 2>&1")].

Definition upload_events : list event :=
  [Render Columns; Render Subheader;
   Render (FileUploader ["mp3"; "wav"; "m4a"; "ogg"; "flac"; "mp4"; "mov"; "mkv"; "webm"])].

Definition preview_player {Model : Type} (env : Env Model) (f : UploadedFile) : widget :=
  if bool_decide (file_ext_of env f ∈ ["mp4"; "mov"; "mkv"; "webm"]) then Video f
  else Audio f ("audio/" +:+ file_ext_of env f).

Definition preview_events {Model : Type} (env : Env Model) (f : UploadedFile) : list event :=
  [Render Subheader; Render InfoBox; Render (preview_player env f); Render Markdown;
   Render Button].

Definition hint_events : list event :=
  [Render InfoBox; Render Expander; Render Markdown].

(** Collaborators that leave the file system as they find it. *)
Definition keeps_files {Model : Type} (env : Env Model) : Prop :=
  (forall n d fs, (whisper_load_model env n d fs).2 = fs) /\
  (forall m a kw fs, (model_transcribe env m a kw fs).2 = fs).

(** ** Properties *)

Module PyFacts.

(** *** [split] and [lower] *)

Lemma split_nonempty sep s : Py.split sep s <> [].
Proof.
  destruct s as [|c s]; simpl; [discriminate|].
  destruct (Ascii.eqb c sep); [discriminate|].
  destruct (Py.split sep s); discriminate.
Qed.

Lemma split_without_sep sep s : Py.contains sep s = false -> Py.split sep s = [s].
Proof.
  induction s as [|c s IH]; simpl; [reflexivity|].
  destruct (Ascii.eqb c sep); simpl; [discriminate|].
  intros H. rewrite (IH H). reflexivity.
Qed.

Lemma last_cons_nonempty (x : string) l d : l <> [] -> List.last (x :: l) d = List.last l d.
Proof. destruct l; [congruence|reflexivity]. Qed.

Lemma split_around_sep sep pre rest :
  exists w ws, Py.split sep (pre +:+ String sep rest) = w :: ws /\ ws <> [] /\
    List.last ws EmptyString = Py.last_item (Py.split sep rest).
Proof.
  induction pre as [|c pre IH]; simpl.
  - rewrite Ascii.eqb_refl. exists EmptyString, (Py.split sep rest).
    split; [reflexivity|]. split; [apply split_nonempty|reflexivity].
  - destruct IH as (w & ws & -> & Hne & Hlast).
    destruct (Ascii.eqb c sep).
    + exists EmptyString, (w :: ws). split; [reflexivity|]. split; [discriminate|].
      rewrite last_cons_nonempty by assumption. assumption.
    + exists (String c w), ws. auto.
Qed.

(** The last item of [name.split('.')] is the text after the last dot. *)
Lemma split_last_item stem ext :
  Py.contains "." ext = false ->
  Py.last_item (Py.split "." (stem +:+ String "." ext)) = ext.
Proof.
  intros H. destruct (split_around_sep "." stem ext) as (w & ws & -> & Hne & Hlast).
  unfold Py.last_item at 1. rewrite last_cons_nonempty by assumption.
  rewrite Hlast, (split_without_sep _ _ H). reflexivity.
Qed.

Lemma lower_char_idem c : Py.lower_char (Py.lower_char c) = Py.lower_char c.
Proof.
  destruct c as [[] [] [] [] [] [] [] []]; reflexivity.
Qed.

Lemma lower_ascii_idem s : Py.lower_ascii (Py.lower_ascii s) = Py.lower_ascii s.
Proof. induction s as [|c s IH]; simpl; [|rewrite lower_char_idem, IH]; reflexivity. Qed.

(** *** Decimal fields *)

Lemma all_digits_app a b : all_digits (a +:+ b) = all_digits a && all_digits b.
Proof.
  induction a as [|c a IH]; simpl; [reflexivity|]. rewrite IH. apply andb_assoc.
Qed.

Lemma digits_value_from_app acc a b :
  digits_value_from acc (a +:+ b) = digits_value_from (digits_value_from acc a) b.
Proof. revert acc. induction a as [|c a IH]; intros acc; simpl; [reflexivity|apply IH]. Qed.

Lemma length_app a b : String.length (a +:+ b) = (String.length a + String.length b)%nat.
Proof. induction a as [|c a IH]; simpl; [reflexivity|]. rewrite IH. reflexivity. Qed.

Lemma digit_char_spec d :
  0 <= d <= 9 -> is_digit (Py.digit_char d) = true /\ digit_value (Py.digit_char d) = d.
Proof.
  intros H.
  assert (E : d = 0 \/ d = 1 \/ d = 2 \/ d = 3 \/ d = 4 \/ d = 5 \/ d = 6 \/ d = 7 \/
              d = 8 \/ d = 9) by lia.
  repeat (destruct E as [-> | E]; [split; reflexivity|]). subst. split; reflexivity.
Qed.

Lemma decimal_digits_spec fuel : forall n acc,
  0 <= n < 10 ^ Z.of_nat fuel -> (1 <= fuel)%nat ->
  all_digits (Py.decimal_digits fuel n) = true /\
  digits_value_from acc (Py.decimal_digits fuel n) = acc * 10 ^ Z.of_nat (String.length (Py.decimal_digits fuel n)) + n /\
  (1 <= String.length (Py.decimal_digits fuel n))%nat.
Proof.
  induction fuel as [|fuel IH]; intros n acc Hn Hfuel; [lia|].
  simpl Py.decimal_digits. destruct (Z.ltb_spec n 10) as [Hlt|Hge].
    + destruct (digit_char_spec n) as [Hd Hv]; [lia|].
      cbn [all_digits digits_value_from String.length]. rewrite Hd, Hv.
      change (10 ^ Z.of_nat 1) with 10. split; [reflexivity|]. split; lia.
    + assert (Hq : 0 <= n / 10 < 10 ^ Z.of_nat fuel).
      { split; [apply Z.div_pos; lia|]. apply Z.div_lt_upper_bound; [lia|].
        rewrite Nat2Z.inj_succ, Z.pow_succ_r in Hn by lia. lia. }
      assert (Hf : (1 <= fuel)%nat).
      { destruct fuel; [simpl in Hn; lia|lia]. }
      destruct (digit_char_spec (n mod 10)) as [Hd Hv];
        [pose proof (Z.mod_pos_bound n 10); lia|].
      destruct (IH (n / 10) acc Hq Hf) as (Ha & Hval & Hlen).
      rewrite all_digits_app, digits_value_from_app, length_app, Ha, Hval.
      cbn [all_digits digits_value_from String.length]. rewrite Hd, Hv.
      split; [reflexivity|]. split; [|lia].
      rewrite Nat2Z.inj_add, Z.pow_add_r by lia. change (10 ^ Z.of_nat 1) with 10.
      pose proof (Z.div_mod n 10). lia.
Qed.

Lemma decimal_digits_length fuel : forall n (k : nat),
  0 <= n < 10 ^ Z.of_nat k -> (1 <= k)%nat ->
  (String.length (Py.decimal_digits fuel n) <= k)%nat.
Proof.
  induction fuel as [|fuel IH]; intros n k Hn Hk; simpl; [lia|].
  destruct (Z.ltb_spec n 10) as [Hlt|Hge]; simpl; [lia|].
  rewrite length_app. simpl.
  destruct k as [|[|k]]; [lia| simpl in Hn; lia |].
  assert (String.length (Py.decimal_digits fuel (n / 10)) <= S k)%nat; [|lia].
  apply IH; [|lia]. split; [apply Z.div_pos; lia|].
  apply Z.div_lt_upper_bound; [lia|].
  rewrite (Nat2Z.inj_succ (S k)), Z.pow_succ_r in Hn by lia. lia.
Qed.

Lemma str_nat_fuel n : 0 <= n -> 0 <= n < 10 ^ Z.of_nat (S (Z.to_nat (Z.log2 n))).
Proof.
  intros Hn. split; [assumption|].
  rewrite Nat2Z.inj_succ, Z2Nat.id by apply Z.log2_nonneg.
  destruct (Z.eq_dec n 0) as [->|Hne]; [reflexivity|].
  apply Z.lt_le_trans with (2 ^ Z.succ (Z.log2 n)).
  - apply Z.log2_spec. lia.
  - apply Z.pow_le_mono_l. lia.
Qed.

(** [str_nat n] is the decimal notation of [n]. *)
Lemma str_nat_spec n :
  0 <= n ->
  all_digits (Py.str_nat n) = true /\ digits_value (Py.str_nat n) = n /\
  (1 <= String.length (Py.str_nat n))%nat.
Proof.
  intros Hn. unfold Py.str_nat, digits_value.
  destruct (decimal_digits_spec _ n 0 (str_nat_fuel n Hn)) as (Ha & Hv & Hl); [lia|].
  rewrite Ha, Hv. split; [reflexivity|]. split; [lia|assumption].
Qed.

Lemma str_nat_length n (k : nat) :
  0 <= n < 10 ^ Z.of_nat k -> (1 <= k)%nat -> (String.length (Py.str_nat n) <= k)%nat.
Proof. intros. apply decimal_digits_length; assumption. Qed.

Lemma zeros_spec k acc :
  all_digits (Py.zeros k) = true /\ digits_value_from acc (Py.zeros k) = acc * 10 ^ Z.of_nat k /\
  String.length (Py.zeros k) = k.
Proof.
  revert acc. induction k as [|k IH]; intros acc.
  - simpl. repeat split. lia.
  - destruct (IH (10 * acc + 0)) as (Ha & Hv & Hl). simpl Py.zeros.
    cbn [all_digits digits_value_from String.length]. rewrite Ha, Hl.
    change (digit_value "0") with 0. rewrite Hv.
    repeat split. rewrite Nat2Z.inj_succ, Z.pow_succ_r by lia. lia.
Qed.

(** Padding keeps the digits and the number, and fills up to the width. *)
Lemma zfill_spec width s :
  all_digits (Py.zfill width s) = all_digits s /\
  digits_value (Py.zfill width s) = digits_value s /\
  String.length (Py.zfill width s) = Nat.max width (String.length s).
Proof.
  unfold Py.zfill, digits_value.
  destruct (zeros_spec (width - String.length s) 0) as (Ha & Hv & Hl).
  rewrite all_digits_app, digits_value_from_app, length_app, Ha, Hv, Hl.
  repeat split. lia.
Qed.

Lemma append_assoc a b c : (a +:+ b) +:+ c = a +:+ (b +:+ c).
Proof.
  induction a as [|x a IH]; [reflexivity|].
  change (String x ((a +:+ b) +:+ c) = String x (a +:+ (b +:+ c))). f_equal. exact IH.
Qed.

(** *** Floats *)

Lemma Qfloor_div_60 x : Qfloor (x / 60) = Qnum x / (60 * Zpos (Qden x)).
Proof.
  destruct x as [n d]. unfold Qdiv, Qmult, Qinv, Qfloor. cbn [Qnum Qden].
  rewrite Z.mul_1_r, Pos2Z.inj_mul. f_equal. lia.
Qed.

Lemma int_inject_Z k : Py.int (inject_Z k) = k.
Proof. unfold Py.int, inject_Z. cbn [Qnum Qden]. apply Z.quot_1_r. Qed.

(** The remainder of [divmod(x, 60)], as a fraction over the denominator of [x]. *)
Lemma divmod_60_remainder x :
  (Py.divmod x 60).2 = (Qnum x * 1 + - (Qfloor (x / 60) * 60) * Zpos (Qden x)) # (Qden x * 1).
Proof. destruct x as [n d]. reflexivity. Qed.

Lemma divmod_60_bounds x :
  (0 <= x)%Q ->
  0 <= Qfloor (x / 60) /\
  0 <= Qnum (Py.divmod x 60).2 < 60 * Zpos (Qden (Py.divmod x 60).2).
Proof.
  intros Hx. rewrite divmod_60_remainder, Qfloor_div_60. cbn [Qnum Qden].
  unfold Qle in Hx. cbn [Qnum Qden] in Hx.
  assert (Hn : 0 <= Qnum x) by lia.
  set (n := Qnum x) in *. set (d := Zpos (Qden x)).
  assert (Hd : 0 < d) by (unfold d; lia).
  rewrite Pos2Z.inj_mul. fold d.
  pose proof (Z.div_mod n (60 * d)) as Hdm.
  pose proof (Z.mod_pos_bound n (60 * d)) as Hmod.
  split; [apply Z.div_pos; lia|]. nia.
Qed.

(** [round_half_even] yields a nearest integer. *)
Lemma round_half_even_nearest a (b : positive) :
  2 * Z.abs (Py.round_half_even (a # b) * Zpos b - a) <= Zpos b.
Proof.
  unfold Py.round_half_even. cbn [Qnum Qden].
  pose proof (Z.div_mod a (Zpos b)) as Hdm.
  pose proof (Z.mod_pos_bound a (Zpos b)) as Hmod.
  destruct (Z.ltb_spec (2 * (a mod Zpos b)) (Zpos b));
    [|destruct (Z.ltb_spec (Zpos b) (2 * (a mod Zpos b))); [|destruct (Z.even _)]]; nia.
Qed.

Lemma round_half_even_bounds a (b : positive) k :
  0 <= a <= k * Zpos b -> 0 <= Py.round_half_even (a # b) <= k.
Proof.
  intros H. pose proof (round_half_even_nearest a b). nia.
Qed.

(** [f"{s:06.3f}"] for a remainder of [divmod(_, 60)]: two digits, the
    point, three digits. *)
Lemma format_f_seconds s :
  0 <= Qnum s < 60 * Zpos (Qden s) ->
  let n := Py.round_half_even (Qabs s * inject_Z 1000) in
  0 <= n <= 60000 /\
  Py.format_f 6 3 s =
    Py.zfill 2 (Py.str_nat (n / 1000)) +:+ "." +:+ Py.zfill 3 (Py.str_nat (n mod 1000)).
Proof.
  intros Hs n.
  assert (Hn : 0 <= n <= 60000).
  { unfold n. destruct s as [a d]. unfold Qabs, Qmult, inject_Z. cbn [Qnum Qden] in *.
    apply round_half_even_bounds. rewrite Pos2Z.inj_mul. lia. }
  split; [assumption|].
  unfold Py.format_f. change (10 ^ Z.of_nat 3) with 1000. fold n.
  destruct (Qlt_le_dec s 0) as [Hneg|_].
  { unfold Qlt in Hneg. cbn [Qnum Qden] in Hneg. lia. }
  assert (Hip : 0 <= n / 1000 < 100).
  { split; [apply Z.div_pos; lia|apply Z.div_lt_upper_bound; lia]. }
  pose proof (Z.mod_pos_bound n 1000 ltac:(lia)) as Hfp.
  destruct (str_nat_spec (n / 1000)) as (_ & _ & Hlen1); [lia|].
  pose proof (str_nat_length (n / 1000) 2 ltac:(change (10 ^ Z.of_nat 2) with 100; lia)
                ltac:(lia)) as Hlen2.
  pose proof (str_nat_length (n mod 1000) 3 ltac:(change (10 ^ Z.of_nat 3) with 1000; lia)
                ltac:(lia)) as Hlen3.
  destruct (zfill_spec 3 (Py.str_nat (n mod 1000))) as (_ & _ & Hlenf).
  set (ip := Py.str_nat (n / 1000)) in *.
  set (fp := Py.zfill 3 (Py.str_nat (n mod 1000))) in *.
  change ("." +:+ fp) with (String "." fp).
  unfold Py.zfill at 1 2. rewrite length_app. cbn [String.length]. rewrite Hlenf.
  replace (6 - (String.length ip + S (Nat.max 3 (String.length (Py.str_nat (n mod 1000))))))%nat
    with (2 - String.length ip)%nat by lia.
  symmetry. apply append_assoc.
Qed.

Lemma round_half_even_nearest_Q s :
  0 <= Qnum s ->
  (Qabs (inject_Z (Py.round_half_even (Qabs s * inject_Z 1000)) - 1000 * s) <= 1 # 2)%Q.
Proof.
  intros Hs. destruct s as [a d]. cbn [Qnum] in Hs.
  unfold Qabs at 2. unfold Qmult at 1. unfold inject_Z at 2. cbn [Qnum Qden].
  pose proof (round_half_even_nearest (Z.abs a * 1000) (d * 1)) as H.
  set (n := Py.round_half_even (Z.abs a * 1000 # d * 1)) in *.
  rewrite Pos2Z.inj_mul, (Z.abs_eq a) in H by assumption.
  apply Qabs_Qle_condition.
  unfold Qle, Qminus, Qplus, Qopp, Qmult, inject_Z. cbn [Qnum Qden].
  rewrite !Pos2Z.inj_mul. change (Z.pos 1) with 1. change (Z.pos 2) with 2. lia.
Qed.

Lemma append_nil_r s : s +:+ "" = s.
Proof.
  induction s as [|c s IH]; [reflexivity|].
  change (String c (s +:+ "") = String c s). f_equal. exact IH.
Qed.

End PyFacts.

(** *** Binary64 rounding *)

Module FloatFacts.
Import Float.

Lemma pow2_pos e : (0 < pow2 e)%Q.
Proof. apply Qpower_0_lt. reflexivity. Qed.

Lemma pow2_add a b : (pow2 (a + b) == pow2 a * pow2 b)%Q.
Proof. apply Qpower_plus. discriminate. Qed.

Lemma pow2_inject k : 0 <= k -> (inject_Z (2 ^ k) == pow2 k)%Q.
Proof. intros H. apply (Zpower_Qpower 2 k H). Qed.

Lemma pow2_le a b : a <= b -> (pow2 a <= pow2 b)%Q.
Proof. intros H. apply Qpower_le_compat_l; [assumption|discriminate]. Qed.

Lemma pow2_le_inv a b : (pow2 a <= pow2 b)%Q -> a <= b.
Proof. intros H. apply (Qpower_le_compat_l_inv 2); [assumption|reflexivity]. Qed.

Lemma pow2_lt_inv a b : (pow2 a < pow2 b)%Q -> a < b.
Proof. intros H. apply (Qpower_lt_compat_l_inv 2); [assumption|reflexivity]. Qed.

(** [ilog2 q] is not above the binary logarithm of [q]. *)
Lemma ilog2_le q : (0 < q)%Q -> (pow2 (ilog2 q) <= q)%Q.
Proof.
  intros Hq. unfold ilog2. destruct (Qle_bool 1 q) eqn:E.
  - apply Qle_bool_iff in E.
    assert (Hn : 1 <= Qfloor q).
    { change 1 with (Qfloor 1). apply Qfloor_resp_le, E. }
    destruct (Z.log2_spec (Qfloor q) ltac:(lia)) as [Hl _].
    rewrite <- pow2_inject by apply Z.log2_nonneg.
    apply Qle_trans with (inject_Z (Qfloor q)); [|apply Qfloor_le].
    rewrite <- Zle_Qle. exact Hl.
  - assert (Hlt : (q < 1)%Q).
    { apply Qnot_le_lt. intros H. apply Qle_bool_iff in H. congruence. }
    set (c := Qceiling (/ q)).
    assert (Hinv : (0 < / q)%Q) by (apply Qinv_lt_0_compat, Hq).
    assert (Hc : (/ q <= inject_Z c)%Q) by apply Qle_ceiling.
    assert (Hc0 : 0 < c).
    { apply Z.lt_le_trans with 1; [lia|]. change 1 with (Qceiling 1). unfold c.
      apply Qceiling_resp_le. apply Qle_shift_inv_l; [assumption|].
      rewrite Qmult_1_l. apply Qlt_le_weak, Hlt. }
    destruct (Z.log2_log2_up_spec c Hc0) as [_ Hu].
    assert (Hup : (/ q <= pow2 (Z.log2_up c))%Q).
    { rewrite <- pow2_inject by apply Z.log2_up_nonneg.
      apply Qle_trans with (inject_Z c); [assumption|]. rewrite <- Zle_Qle. exact Hu. }
    unfold pow2. rewrite Qpower_opp. fold (pow2 (Z.log2_up c)).
    apply Qle_shift_inv_r; [apply pow2_pos|].
    assert (H1 : (1 == / q * q)%Q).
    { rewrite Qmult_comm, Qmult_inv_r; [reflexivity|].
      intros H0. rewrite H0 in Hq. discriminate. }
    rewrite H1, (Qmult_comm q). apply Qmult_le_compat_r; [exact Hup|].
    apply Qlt_le_weak, Hq.
Qed.

Lemma round_half_even_le x n : (x <= inject_Z n)%Q -> Py.round_half_even x <= n.
Proof.
  destruct x as [a b]. unfold Qle, inject_Z. cbn [Qnum Qden]. intros H.
  pose proof (PyFacts.round_half_even_nearest a b). nia.
Qed.

Lemma round_half_even_nonneg x : (0 <= x)%Q -> 0 <= Py.round_half_even x.
Proof.
  destruct x as [a b]. unfold Qle. cbn [Qnum Qden]. intros H.
  pose proof (PyFacts.round_half_even_nearest a b). nia.
Qed.

Lemma Qabs_nonneg_eq q : (0 <= q)%Q -> Qabs q = q.
Proof.
  destruct q as [a b]. unfold Qle, Qabs. cbn [Qnum Qden]. intros H.
  rewrite Z.abs_eq by lia. reflexivity.
Qed.

Lemma max_float_lt : (max_float < pow2 1024)%Q.
Proof. vm_compute. reflexivity. Qed.

(** Rounding does not pass a multiple of the unit in the last place. *)
Lemma round_upper q B n :
  (0 <= q)%Q -> (q <= B)%Q -> (B <= max_float)%Q ->
  (B == inject_Z n * pow2 (exponent q))%Q ->
  exists r, round q = Finite r /\ (0 <= r)%Q /\ (r <= B)%Q.
Proof.
  intros Hq HB Hmax Hn. unfold round. fold (exponent q).
  destruct (Qeq_bool q 0) eqn:E0.
  { exists 0%Q. split; [reflexivity|]. split; [apply Qle_refl|].
    apply Qle_trans with q; assumption. }
  rewrite (Qabs_nonneg_eq q Hq).
  set (e := exponent q) in *.
  set (m := Py.round_half_even (q / pow2 e)).
  assert (Hm0 : 0 <= m).
  { apply round_half_even_nonneg. apply Qle_shift_div_l; [apply pow2_pos|].
    rewrite Qmult_0_l. exact Hq. }
  assert (Hmn : m <= n).
  { apply round_half_even_le. apply Qle_shift_div_r; [apply pow2_pos|].
    rewrite <- Hn. exact HB. }
  assert (Hr : (inject_Z m * pow2 e <= B)%Q).
  { rewrite Hn. apply Qmult_le_compat_r; [|apply Qlt_le_weak, pow2_pos].
    rewrite <- Zle_Qle. exact Hmn. }
  assert (Hr0 : (0 <= inject_Z m * pow2 e)%Q).
  { apply Qmult_le_0_compat; [|apply Qlt_le_weak, pow2_pos].
    change 0%Q with (inject_Z 0). rewrite <- Zle_Qle. exact Hm0. }
  destruct (Qle_bool (pow2 1024) (inject_Z m * pow2 e)) eqn:Eo.
  { exfalso. apply Qle_bool_iff in Eo.
    apply (Qlt_irrefl (pow2 1024)).
    apply Qle_lt_trans with max_float; [|apply max_float_lt].
    apply Qle_trans with B; [|assumption].
    apply Qle_trans with (inject_Z m * pow2 e)%Q; assumption. }
  assert (Hs : Qle_bool 0 q = true) by (apply Qle_bool_iff, Hq).
  rewrite Hs. cbn [negb]. eexists. split; [reflexivity|]. split; assumption.
Qed.

Lemma exponent_le q k :
  (0 < q)%Q -> (q <= pow2 k)%Q -> -1074 <= k -> exponent q <= k.
Proof.
  intros Hq Hk Hlow. unfold exponent.
  rewrite (Qabs_nonneg_eq q) by apply Qlt_le_weak, Hq.
  assert (ilog2 q <= k).
  { apply pow2_le_inv. apply Qle_trans with q; [apply ilog2_le, Hq|exact Hk]. }
  lia.
Qed.

Lemma Qeq_bool_false_pos q : (0 <= q)%Q -> Qeq_bool q 0 = false -> (0 < q)%Q.
Proof.
  intros H E. apply Qle_lteq in H as [H|H]; [assumption|].
  symmetry in H. apply Qeq_bool_iff in H. congruence.
Qed.

Lemma round_zero q : Qeq_bool q 0 = true -> round q = Finite 0.
Proof. intros E. unfold round. rewrite E. reflexivity. Qed.

(** Rounding does not pass a power of two. *)
Lemma round_le_pow2 q k :
  (0 <= q)%Q -> (q <= pow2 k)%Q -> -1074 <= k <= 1023 ->
  exists r, round q = Finite r /\ (0 <= r)%Q /\ (r <= pow2 k)%Q.
Proof.
  intros Hq Hk Hrange. destruct (Qeq_bool q 0) eqn:E0.
  { exists 0%Q. rewrite (round_zero q E0). split; [reflexivity|].
    split; [apply Qle_refl|apply Qlt_le_weak, pow2_pos]. }
  pose proof (Qeq_bool_false_pos q Hq E0) as Hpos.
  pose proof (exponent_le q k Hpos Hk ltac:(lia)) as He.
  apply (round_upper q (pow2 k) (2 ^ (k - exponent q))); [assumption|assumption| |].
  - apply Qle_trans with (pow2 1023); [apply pow2_le; lia|].
    vm_compute. discriminate.
  - rewrite pow2_inject by lia. rewrite <- pow2_add.
    replace (k - exponent q + exponent q) with k by lia. reflexivity.
Qed.

(** Rounding does not pass the largest binary64 number. *)
Lemma round_le_max q :
  (0 <= q)%Q -> (q <= max_float)%Q ->
  exists r, round q = Finite r /\ (0 <= r)%Q /\ (r <= max_float)%Q.
Proof.
  intros Hq Hmax. destruct (Qeq_bool q 0) eqn:E0.
  { exists 0%Q. rewrite (round_zero q E0). split; [reflexivity|].
    split; [apply Qle_refl|]. vm_compute. discriminate. }
  pose proof (Qeq_bool_false_pos q Hq E0) as Hpos.
  assert (He : exponent q <= 971).
  { unfold exponent. rewrite (Qabs_nonneg_eq q Hq).
    assert (ilog2 q < 1024).
    { apply pow2_lt_inv. apply Qle_lt_trans with q; [apply ilog2_le, Hpos|].
      apply Qle_lt_trans with max_float; [assumption|apply max_float_lt]. }
    lia. }
  apply (round_upper q max_float ((2 ^ 53 - 1) * 2 ^ (971 - exponent q)));
    [assumption|assumption|apply Qle_refl|].
  rewrite inject_Z_mult, pow2_inject by lia. rewrite <- Qmult_assoc, <- pow2_add.
  replace (971 - exponent q + exponent q) with 971 by lia.
  vm_compute. reflexivity.
Qed.

Lemma int_nonneg a : (0 <= a)%Q -> Py.int a = Qfloor a /\ 0 <= Py.int a.
Proof.
  destruct a as [n d]. unfold Qle, Py.int, Qfloor. cbn [Qnum Qden]. intros H.
  rewrite Z.quot_div_nonneg by lia. split; [reflexivity|]. apply Z.div_pos; lia.
Qed.

Lemma fmod_60 x :
  (0 <= x)%Q -> fmod (Finite x) (Finite 60) = Finite (Py.divmod x 60).2.
Proof.
  intros Hx. unfold fmod. change (Qeq_bool 60 0) with false. cbv iota.
  destruct (int_nonneg (x / 60)) as [-> _]; [|reflexivity].
  apply Qle_shift_div_l; [reflexivity|]. rewrite Qmult_0_l. exact Hx.
Qed.

(** [divmod(x, 60)] for a finite [x >= 0]: both results are finite, the
    quotient is not negative and the remainder is in [0, 60). *)
Lemma div_mod_60 x :
  (0 <= x)%Q -> (x <= max_float)%Q ->
  exists fd md,
    div_mod (Finite x) (Finite 60) = (Finite fd, Finite md) /\
    (0 <= fd)%Q /\ (fd <= max_float)%Q /\
    0 <= Qnum md < 60 * Zpos (Qden md).
Proof.
  intros Hx Hmax. unfold div_mod. rewrite (fmod_60 x Hx).
  destruct (PyFacts.divmod_60_bounds x Hx) as [Hq Hr0].
  set (r0 := (Py.divmod x 60).2) in *.
  set (c := (inject_Z (Qfloor (x / 60)) * 60)%Q).
  assert (Hc : (x + - r0 == c)%Q).
  { change r0 with (x - c)%Q. ring. }
  assert (Hr0q : (0 <= r0)%Q) by (unfold Qle; cbn [Qnum Qden]; lia).
  assert (Hc0 : (0 <= c)%Q).
  { apply Qmult_le_0_compat; [|discriminate].
    change 0%Q with (inject_Z 0). rewrite <- Zle_Qle. exact Hq. }
  assert (Hcx : (c <= x)%Q).
  { apply Qle_minus_iff. change (0 <= x - c)%Q. exact Hr0q. }
  change (sub (Finite x) (Finite r0)) with (round (x + - r0)).
  destruct (round_le_max (x + - r0)) as (r1 & -> & H1 & H1').
  { rewrite Hc. exact Hc0. }
  { rewrite Hc. apply Qle_trans with x; assumption. }
  unfold div. change (Qeq_bool 60 0) with false. cbv iota.
  destruct (round_le_pow2 (r1 / 60) 1019) as (r2 & -> & H2 & H2').
  { apply Qle_shift_div_l; [reflexivity|]. rewrite Qmult_0_l. exact H1. }
  { apply Qle_shift_div_r; [reflexivity|]. apply Qle_trans with max_float; [exact H1'|].
    vm_compute. discriminate. }
  { lia. }
  assert (Hs : lt_0 (Finite r0) = false).
  { unfold lt_0. apply Qle_bool_iff in Hr0q. rewrite Hr0q. reflexivity. }
  rewrite Hs. change (lt_0 (Finite 60)) with false. cbn [Bool.eqb negb].
  assert (Hfl : (0 <= inject_Z (Qfloor r2))%Q).
  { change 0%Q with (inject_Z 0). rewrite <- Zle_Qle.
    change 0 with (Qfloor 0). apply Qfloor_resp_le, H2. }
  assert (Hfl' : (inject_Z (Qfloor r2) <= pow2 1019)%Q).
  { apply Qle_trans with r2; [apply Qfloor_le|exact H2']. }
  assert (Hp : (pow2 1020 <= max_float)%Q) by (vm_compute; discriminate).
  assert (Hp' : (pow2 1019 + 1 <= pow2 1020)%Q) by (vm_compute; discriminate).
  assert (Hfd : exists fd,
    (if nonzero (Finite r2)
     then if gt (sub (Finite r2) (floor (Finite r2))) (Finite (1 # 2))
          then add (floor (Finite r2)) (Finite 1) else floor (Finite r2)
     else Finite 0) = Finite fd /\ (0 <= fd)%Q /\ (fd <= max_float)%Q).
  { destruct (nonzero (Finite r2)).
    - destruct (gt _ _).
      + cbn [floor add].
        destruct (round_le_pow2 (inject_Z (Qfloor r2) + 1) 1020) as (r3 & -> & H3 & H3').
        * apply Qle_trans with (inject_Z (Qfloor r2) + 0)%Q;
            [rewrite Qplus_0_r; exact Hfl|].
          apply Qplus_le_compat; [apply Qle_refl|discriminate].
        * apply Qle_trans with (pow2 1019 + 1)%Q; [|exact Hp'].
          apply Qplus_le_compat; [exact Hfl'|apply Qle_refl].
        * lia.
        * exists r3. split; [reflexivity|]. split; [exact H3|].
          apply Qle_trans with (pow2 1020); assumption.
      + cbn [floor]. eexists. split; [reflexivity|]. split; [exact Hfl|].
        apply Qle_trans with (pow2 1019); [exact Hfl'|].
        apply Qle_trans with (pow2 1020); [|exact Hp]. apply pow2_le. lia.
    - exists 0%Q. split; [reflexivity|]. split; [apply Qle_refl|]. vm_compute. discriminate. }
  destruct (nonzero (Finite r0)); cbv iota beta;
    destruct Hfd as (fd & -> & Hfd0 & Hfd1).
  - exists fd, r0. repeat split; try assumption; apply Hr0.
  - exists fd, 0%Q. repeat split; try assumption; cbn [Qnum Qden]; lia.
Qed.

Lemma int_minutes a :
  0 <= Qnum a < 60 * Zpos (Qden a) -> 0 <= Py.int a < 60.
Proof.
  destruct a as [n d]. unfold Py.int. cbn [Qnum Qden]. intros H.
  rewrite Z.quot_div_nonneg by lia. split; [apply Z.div_pos; lia|].
  apply Z.div_lt_upper_bound; lia.
Qed.

(** The timestamp of a finite, non-negative float. *)
Lemma format_timestamp_finite x :
  (0 <= x)%Q -> (x <= max_float)%Q ->
  exists (h m n : Z),
    format_timestamp (Finite x) =
      Ok (Py.zfill 2 (Py.str_nat h) +:+ ":" +:+ Py.zfill 2 (Py.str_nat m) +:+ ":" +:+
          Py.zfill 2 (Py.str_nat (n / 1000)) +:+ "." +:+ Py.zfill 3 (Py.str_nat (n mod 1000))) /\
    0 <= h /\ 0 <= m < 60 /\ 0 <= n <= 60000.
Proof.
  intros Hx Hmax. unfold format_timestamp.
  destruct (div_mod_60 x Hx Hmax) as (fd & s & -> & Hfd0 & Hfd1 & Hs).
  destruct (div_mod_60 fd Hfd0 Hfd1) as (h & m & -> & Hh0 & _ & Hm).
  cbn [int format_f].
  destruct (int_nonneg h Hh0) as [_ Hh]. pose proof (int_minutes m Hm) as Hmi.
  destruct (PyFacts.format_f_seconds s Hs) as [Hn ->].
  exists (Py.int h), (Py.int m), (Py.round_half_even (Qabs s * inject_Z 1000)).
  unfold Py.format_d.
  destruct (Z.ltb_spec (Py.int h) 0) as [?|_]; [lia|].
  destruct (Z.ltb_spec (Py.int m) 0) as [?|_]; [lia|].
  repeat split; try reflexivity; lia.
Qed.

Lemma round_half_even_inject x n : (x == inject_Z n)%Q -> Py.round_half_even x = n.
Proof.
  destruct x as [a b]. unfold Qeq, inject_Z. cbn [Qnum Qden]. intros H.
  pose proof (PyFacts.round_half_even_nearest a b). nia.
Qed.

(** A multiple of the unit in the last place is not changed by rounding. *)
Lemma round_exact q n :
  (0 <= q)%Q -> (q < pow2 1024)%Q -> (q == inject_Z n * pow2 (exponent q))%Q ->
  exists r, round q = Finite r /\ (r == q)%Q.
Proof.
  intros Hq Hmax Hn. unfold round.
  destruct (Qeq_bool q 0) eqn:E0.
  { exists 0%Q. split; [reflexivity|]. symmetry. apply Qeq_bool_iff, E0. }
  rewrite (Qabs_nonneg_eq q Hq).
  set (e := exponent q) in *.
  assert (Hm : Py.round_half_even (q / pow2 e) = n).
  { apply round_half_even_inject. rewrite Hn. apply Qdiv_mult_l.
    intros H0. pose proof (pow2_pos e) as Hp. rewrite H0 in Hp. discriminate. }
  rewrite Hm.
  destruct (Qle_bool (pow2 1024) (inject_Z n * pow2 e)) eqn:Eo.
  { exfalso. apply Qle_bool_iff in Eo. rewrite <- Hn in Eo.
    apply (Qlt_irrefl q). apply Qlt_le_trans with (pow2 1024); assumption. }
  assert (Hs : Qle_bool 0 q = true) by (apply Qle_bool_iff, Hq).
  rewrite Hs. cbn [negb]. eexists. split; [reflexivity|]. symmetry. exact Hn.
Qed.

(** A number [j 2^s] below [2^(s+53)] is a binary64 number. *)
Lemma round_scaled q j s :
  (0 <= q)%Q -> (q == inject_Z j * pow2 s)%Q -> (q < pow2 (s + 53))%Q ->
  -1074 <= s <= 971 ->
  exists r, round q = Finite r /\ (r == q)%Q.
Proof.
  intros Hq Hj Hlt Hs. destruct (Qeq_bool q 0) eqn:E0.
  { exists 0%Q. rewrite (round_zero q E0). split; [reflexivity|].
    symmetry. apply Qeq_bool_iff, E0. }
  pose proof (Qeq_bool_false_pos q Hq E0) as Hpos.
  assert (He : exponent q <= s).
  { unfold exponent. rewrite (Qabs_nonneg_eq q Hq).
    assert (ilog2 q < s + 53).
    { apply pow2_lt_inv. apply Qle_lt_trans with q; [apply ilog2_le, Hpos|exact Hlt]. }
    lia. }
  apply (round_exact q (j * 2 ^ (s - exponent q))); [assumption| |].
  - apply Qlt_le_trans with (pow2 (s + 53)); [assumption|apply pow2_le; lia].
  - rewrite inject_Z_mult, pow2_inject by lia. rewrite <- Qmult_assoc, <- pow2_add.
    replace (s - exponent q + exponent q) with s by lia. exact Hj.
Qed.

Lemma format_f_zero width prec r :
  (r == 0)%Q -> Py.format_f width prec r = Py.format_f width prec 0.
Proof.
  destruct r as [a d]. unfold Qeq. cbn [Qnum Qden]. intros H.
  assert (a = 0) by lia. subst a. unfold Py.format_f.
  assert (Hn : Py.round_half_even (Qabs (0 # d) * inject_Z (10 ^ Z.of_nat prec)) =
               Py.round_half_even (Qabs 0 * inject_Z (10 ^ Z.of_nat prec))).
  { rewrite !(round_half_even_inject _ 0); [reflexivity| |]; unfold Qeq; cbn; lia. }
  rewrite Hn.
  destruct (Qlt_le_dec (0 # d) 0) as [Hlt|_]; [discriminate Hlt|].
  destruct (Qlt_le_dec 0 0) as [Hlt|_]; [discriminate Hlt|]. reflexivity.
Qed.

Lemma int_zero r : (r == 0)%Q -> Py.int r = Py.int 0.
Proof.
  destruct r as [a d]. unfold Qeq, Py.int. cbn [Qnum Qden]. intros H.
  assert (a = 0) by lia. subst a. reflexivity.
Qed.

Lemma Qle_mult_60 x : (0 <= x)%Q -> (x <= x * 60)%Q.
Proof.
  destruct x as [a d]. unfold Qle, Qmult. cbn [Qnum Qden]. intros H.
  rewrite Pos2Z.inj_mul. nia.
Qed.

(** Below 2^55 no step of [divmod(x, 60)] rounds: the quotient is the
    floor of [x / 60] and the remainder is the exact one. *)
Lemma div_mod_60_exact x :
  (0 <= x)%Q -> (x < pow2 55)%Q ->
  exists s,
    div_mod (Finite x) (Finite 60) = (Finite (inject_Z (Qfloor (x / 60))), Finite s) /\
    (s = (Py.divmod x 60).2 \/ s = 0%Q /\ ((Py.divmod x 60).2 == 0)%Q).
Proof.
  intros Hx Hlt. unfold div_mod. rewrite (fmod_60 x Hx).
  destruct (PyFacts.divmod_60_bounds x Hx) as [Hq Hr0].
  set (r0 := (Py.divmod x 60).2) in *.
  set (k := Qfloor (x / 60)) in *.
  set (c := (inject_Z k * 60)%Q).
  assert (Hc : (x + - r0 == c)%Q) by (change r0 with (x - c)%Q; ring).
  assert (Hr0q : (0 <= r0)%Q) by (unfold Qle; cbn [Qnum Qden]; lia).
  assert (Hk0 : (0 <= inject_Z k)%Q).
  { change 0%Q with (inject_Z 0). rewrite <- Zle_Qle. exact Hq. }
  assert (Hc0 : (0 <= c)%Q) by (apply Qmult_le_0_compat; [exact Hk0|discriminate]).
  assert (Hcx : (c <= x)%Q).
  { apply Qle_minus_iff. change (0 <= x - c)%Q. exact Hr0q. }
  assert (Hkc : (inject_Z k <= c)%Q).
  { apply Qle_mult_60, Hk0. }
  change (sub (Finite x) (Finite r0)) with (round (x + - r0)).
  destruct (round_scaled (x + - r0) (15 * k) 2) as (r1 & -> & H1).
  { rewrite Hc. exact Hc0. }
  { rewrite Hc. unfold c. rewrite inject_Z_mult.
    change (pow2 2) with 4%Q. change (inject_Z 15) with 15%Q. ring. }
  { rewrite Hc. apply Qle_lt_trans with x; assumption. }
  { lia. }
  rewrite Hc in H1.
  unfold div. change (Qeq_bool 60 0) with false. cbv iota.
  assert (H1k : (r1 / 60 == inject_Z k)%Q).
  { rewrite H1. unfold c. apply Qdiv_mult_l. discriminate. }
  destruct (round_scaled (r1 / 60) k 0) as (r2 & -> & H2).
  { rewrite H1k. exact Hk0. }
  { rewrite H1k. change (pow2 0) with 1%Q. ring. }
  { rewrite H1k. change (0 + 53) with 53. rewrite <- pow2_inject by lia.
    rewrite <- Zlt_Qlt.
    assert (Hc55 : (inject_Z (k * 60) < inject_Z (2 ^ 55))%Q).
    { rewrite inject_Z_mult, (pow2_inject 55) by lia.
      apply Qle_lt_trans with x; [exact Hcx|exact Hlt]. }
    rewrite <- Zlt_Qlt in Hc55. lia. }
  { lia. }
  rewrite H1k in H2.
  assert (Hs : lt_0 (Finite r0) = false).
  { unfold lt_0. apply Qle_bool_iff in Hr0q. rewrite Hr0q. reflexivity. }
  rewrite Hs. change (lt_0 (Finite 60)) with false. cbn [Bool.eqb negb].
  assert (Hfl : Qfloor r2 = k).
  { rewrite (Qfloor_comp _ _ H2). apply Qfloor_Z. }
  assert (Hfd :
    (if nonzero (Finite r2)
     then if gt (sub (Finite r2) (floor (Finite r2))) (Finite (1 # 2))
          then add (floor (Finite r2)) (Finite 1) else floor (Finite r2)
     else Finite 0) = Finite (inject_Z k)).
  { unfold nonzero. destruct (Qeq_bool r2 0) eqn:E2; cbn [negb].
    - apply Qeq_bool_iff in E2. rewrite E2 in H2.
      assert (k = 0).
      { symmetry in H2. unfold Qeq, inject_Z in H2. cbn [Qnum Qden] in H2. lia. }
      subst k. rewrite H. reflexivity.
    - cbn [floor]. rewrite Hfl.
      change (sub (Finite r2) (Finite (inject_Z k))) with (round (r2 + - inject_Z k)).
      rewrite round_zero; [reflexivity|].
      apply Qeq_bool_iff. rewrite H2. ring. }
  destruct (nonzero (Finite r0)) eqn:Enz; cbv iota beta; rewrite Hfd.
  - exists r0. split; [reflexivity|]. left. reflexivity.
  - exists 0%Q. split; [reflexivity|]. right. split; [reflexivity|].
    unfold nonzero in Enz. apply Bool.negb_false_iff, Qeq_bool_iff in Enz. exact Enz.
Qed.

End FloatFacts.

(** Below 2^55 seconds the timestamp of a float is the one exact
    arithmetic gives. *)
Lemma float_format_timestamp_exact x :
  (0 <= x)%Q -> (x < inject_Z (2 ^ 55))%Q ->
  Float.format_timestamp (Float.Finite x) = Ok (format_timestamp x).
Proof.
  intros Hx Hlt.
  assert (Hlt' : (x < Float.pow2 55)%Q) by (rewrite <- FloatFacts.pow2_inject by lia; exact Hlt).
  unfold Float.format_timestamp, format_timestamp.
  destruct (FloatFacts.div_mod_60_exact x Hx Hlt') as (s & -> & Hs).
  destruct (PyFacts.divmod_60_bounds x Hx) as [Hq _].
  change (Py.divmod x 60) with (inject_Z (Qfloor (x / 60)), (Py.divmod x 60).2).
  cbv iota beta.
  set (k := Qfloor (x / 60)) in *.
  assert (Hk0 : (0 <= inject_Z k)%Q).
  { change 0%Q with (inject_Z 0). rewrite <- Zle_Qle. exact Hq. }
  assert (Hk : (inject_Z k < Float.pow2 55)%Q).
  { apply Qle_lt_trans with x; [|exact Hlt'].
    apply Qle_trans with (x / 60)%Q; [apply Qfloor_le|].
    apply Qle_shift_div_r; [reflexivity|]. apply FloatFacts.Qle_mult_60, Hx. }
  destruct (FloatFacts.div_mod_60_exact (inject_Z k) Hk0 Hk) as (m & -> & Hm).
  change (Py.divmod (inject_Z k) 60)
    with (inject_Z (Qfloor (inject_Z k / 60)), (Py.divmod (inject_Z k) 60).2).
  cbv iota beta. cbn [Float.int Float.format_f].
  assert (Em : Py.int m = Py.int (Py.divmod (inject_Z k) 60).2).
  { destruct Hm as [->|[-> Hz]]; [reflexivity|]. symmetry. apply FloatFacts.int_zero, Hz. }
  assert (Es : Py.format_f 6 3 s = Py.format_f 6 3 (Py.divmod x 60).2).
  { destruct Hs as [->|[-> Hz]]; [reflexivity|]. symmetry. apply FloatFacts.format_f_zero, Hz. }
  rewrite Em, Es. reflexivity.
Qed.


Section Properties.

Context {Model : Type}.
Implicit Types (env : Env Model) (w : world Model) (f : UploadedFile).

Ltac run :=
  repeat (unfold mbind, M_bind, mret, M_ret, raise, render, emit, st_error, st_stop,
            st_selectbox, st_file_uploader, st_button; simpl).

(** *** The file system calls *)

Lemma persist_run env f file_ext w :
  persist env f file_ext w =
  match mkstemp_inner (files w) (gettempdir env) "tmp" ("." +:+ file_ext)
          (candidate_names env) with
  | Some path =>
      (Ok path,
       World (<[path := getvalue f]> (files w)) (cache w)
             (trace w ++ [Call (NamedTemporaryFile path)]))
  | None => (Raise (Exc FileExistsError "[Errno 17] No usable temporary file name found"), w)
  end.
Proof.
  unfold persist, named_temporary_file, file_write. run.
  destruct (mkstemp_inner _ _ _ _ _) as [path|]; [|reflexivity].
  simpl. rewrite lookup_insert_eq, insert_insert_eq. reflexivity.
Qed.

Lemma mkstemp_inner_fresh (fs : FileSystem) dir pre suf names path :
  mkstemp_inner fs dir pre suf names = Some path ->
  fs !! path = None /\ exists n, n ∈ names /\ path = dir +:+ pre +:+ n +:+ suf.
Proof.
  induction names as [|n names IH]; simpl; [discriminate|].
  destruct (fs !! (dir +:+ pre +:+ n +:+ suf)) eqn:E.
  - intros H. destruct (IH H) as [? [n' [? ?]]]. split; [assumption|].
    exists n'. split; [apply list_elem_of_further|]; assumption.
  - intros [= <-]. split; [assumption|]. exists n. split; [apply list_elem_of_here|reflexivity].
Qed.

Lemma cleanup_run (p : string) w :
  cleanup (Model := Model) p w =
  match files w !! p with
  | Some _ => (Ok tt, World (delete p (files w)) (cache w) (trace w ++ [Call (OsUnlink p)]))
  | None => (Ok tt, w)
  end.
Proof.
  unfold cleanup, os_path_exists, os_unlink. run.
  destruct (files w !! p) eqn:E.
  - rewrite bool_decide_eq_true_2 by eauto. rewrite E. reflexivity.
  - rewrite bool_decide_eq_false_2 by (intros [? ?]; discriminate). reflexivity.
Qed.

Lemma cleanup_removes (p : string) w :
  exists w', cleanup p w = (Ok tt, w') /\ files w' !! p = None /\ cache w' = cache w.
Proof.
  rewrite cleanup_run. destruct (files w !! p) eqn:E; eexists; (split; [reflexivity|]); simpl.
  - split; [apply lookup_delete_eq|reflexivity].
  - split; [assumption|reflexivity].
Qed.

(** *** The model cache *)

Lemma load_whisper_model_run env (model_option : string) w :
  load_whisper_model env model_option w =
  match cache w !! model_option with
  | Some m => (Ok m, w)
  | None =>
      let tr := trace w ++ [Call (WhisperLoadModel model_option (device_name env))] in
      match whisper_load_model env model_option (device_name env) (files w) with
      | (Ok m, fs) => (Ok m, World fs (<[model_option := m]> (cache w)) tr)
      | (Raise e, fs) => (Raise e, World fs (cache w) tr)
      end
  end.
Proof.
  unfold load_whisper_model, st_cache_resource, load_whisper_model_body,
    py_whisper_load_model, device_name.
  destruct (cache w !! model_option); [reflexivity|].
  destruct (whisper_load_model _ _ _ _) as [[m|e] fs]; reflexivity.
Qed.

Lemma load_whisper_model_hit env (model_option : string) w m :
  cache w !! model_option = Some m ->
  load_whisper_model env model_option w = (Ok m, w).
Proof. intros H. rewrite load_whisper_model_run, H. reflexivity. Qed.

Lemma load_whisper_model_cached env (model_option : string) w m w' :
  load_whisper_model env model_option w = (Ok m, w') ->
  cache w' !! model_option = Some m.
Proof.
  rewrite load_whisper_model_run. destruct (cache w !! model_option) eqn:E.
  - intros [= <- <-]. assumption.
  - simpl. destruct (whisper_load_model _ _ _ _) as [[m'|e] fs]; [|discriminate].
    intros [= <- <-]. simpl. apply lookup_insert_eq.
Qed.

Lemma load_whisper_model_trace env (model_option : string) w r w' :
  load_whisper_model env model_option w = (r, w') ->
  trace w' = trace w \/
  trace w' = trace w ++ [Call (WhisperLoadModel model_option (device_name env))].
Proof.
  rewrite load_whisper_model_run. destruct (cache w !! model_option).
  - intros [= <- <-]. left. reflexivity.
  - simpl. destruct (whisper_load_model _ _ _ _) as [[m'|e] fs];
      intros [= <- <-]; right; reflexivity.
Qed.

Lemma load_whisper_model_keeps env (model_option : string) w r w' (k : string) m :
  load_whisper_model env model_option w = (r, w') ->
  cache w !! k = Some m -> cache w' !! k = Some m.
Proof.
  rewrite load_whisper_model_run. destruct (cache w !! model_option) eqn:E.
  - intros [= <- <-]. trivial.
  - simpl. destruct (whisper_load_model _ _ _ _) as [[m'|e] fs];
      intros [= <- <-]; simpl; [|trivial].
    intros Hk. rewrite lookup_insert_ne; [assumption|]. congruence.
Qed.

(** *** The [try] block *)

Lemma py_model_transcribe_run env (m : Model) (audio : string) kwargs w :
  py_model_transcribe env m audio kwargs w =
  ((model_transcribe env m audio kwargs (files w)).1,
   World (model_transcribe env m audio kwargs (files w)).2 (cache w)
         (trace w ++ [Call (ModelTranscribe audio kwargs)])).
Proof.
  unfold py_model_transcribe. destruct (model_transcribe _ _ _ _ _). reflexivity.
Qed.

Lemma transcribe_and_show_run env (tmp mo lo : string) w :
  transcribe_and_show env tmp mo lo w =
  match load_whisper_model env mo w with
  | (Raise e, w1) => (Raise e, w1)
  | (Ok m, w1) =>
      match py_model_transcribe env m tmp (transcribe_options lo) w1 with
      | (Raise e, w2) => (Raise e, w2)
      | (Ok res, w2) =>
          (Ok tt, World (files w2) (cache w2) (trace w2 ++ result_widgets res))
      end
  end.
Proof.
  unfold transcribe_and_show. run.
  destruct (load_whisper_model env mo w) as [[m|e] w1]; [|reflexivity].
  destruct (py_model_transcribe _ _ _ _ _) as [[res|e] w2]; [|reflexivity].
  unfold result_widgets. destruct (segments_loop (segments res)) as [table_data timestamp_text].
  run. rewrite <- !app_assoc. reflexivity.
Qed.

Lemma capability_raises_body env (tmp mo lo : string) w e w' :
  capability_raises env tmp mo lo w e w' ->
  transcribe_and_show env tmp mo lo w = (Raise e, w').
Proof.
  rewrite transcribe_and_show_run. intros [H | (m & w1 & H1 & H2)].
  - rewrite H. reflexivity.
  - rewrite H1, H2. reflexivity.
Qed.

Lemma body_raises_capability env (tmp mo lo : string) w e w' :
  transcribe_and_show env tmp mo lo w = (Raise e, w') ->
  capability_raises env tmp mo lo w e w'.
Proof.
  rewrite transcribe_and_show_run. unfold capability_raises.
  destruct (load_whisper_model env mo w) as [[m|e1] w1].
  - destruct (py_model_transcribe _ _ _ _ _) as [[res|e2] w2] eqn:E; [discriminate|].
    intros [= <- <-]. right. eauto.
  - intros [= <- <-]. left. reflexivity.
Qed.

Lemma capability_raises_trace env (tmp mo lo : string) w e w' :
  capability_raises env tmp mo lo w e w' ->
  error_boxes (trace w') = error_boxes (trace w).
Proof.
  intros [H | (m & w1 & H1 & H2)].
  - apply load_whisper_model_trace in H as [-> | ->]; [reflexivity|].
    unfold error_boxes. rewrite omap_app. simpl. apply app_nil_r.
  - rewrite py_model_transcribe_run in H2. injection H2 as _ <-. simpl.
    unfold error_boxes. rewrite omap_app. simpl. rewrite app_nil_r.
    apply load_whisper_model_trace in H1 as [-> | ->]; [reflexivity|].
    rewrite omap_app. simpl. apply app_nil_r.
Qed.

(** *** The request *)

Lemma transcription_request_run env f (ext mo lo : string) w tmp w1 :
  persist env f ext w = (Ok tmp, w1) ->
  transcription_request env f ext mo lo w =
  match transcribe_and_show env tmp mo lo w1 with
  | (Ok _, w2) => (Ok tt, (cleanup tmp w2).2)
  | (Raise e, w2) =>
      if isinstance_Exception e
      then (Ok tt, (cleanup tmp (World (files w2) (cache w2)
                                   (trace w2 ++ [Render (ErrorBox (error_message e))]))).2)
      else (Raise e, (cleanup tmp w2).2)
  end.
Proof.
  intros Hp. unfold transcription_request. unfold mbind at 1. unfold M_bind.
  rewrite Hp. unfold try_finally, try_except_Exception.
  destruct (transcribe_and_show env tmp mo lo w1) as [[[]|e] w2].
  - destruct (cleanup_removes tmp w2) as (w3 & -> & _). reflexivity.
  - destruct (isinstance_Exception e).
    + unfold st_error, render, emit; simpl.
      match goal with |- context [cleanup tmp ?x] =>
        destruct (cleanup_removes tmp x) as (w3 & -> & _) end.
      reflexivity.
    + destruct (cleanup_removes tmp w2) as (w3 & -> & _). reflexivity.
Qed.

(** *** Nothing is taken from the trace or from the cache *)

Lemma grows_ret {A} (a : A) : grows (Model := Model) (mret a).
Proof. intros w. split; [trivial|]. exists []. symmetry. apply app_nil_r. Qed.

Lemma grows_raise {A} e : grows (Model := Model) (raise (A := A) e).
Proof. intros w. split; [trivial|]. exists []. symmetry. apply app_nil_r. Qed.

Lemma grows_bind {A B} (m : M Model A) (k : A -> M Model B) :
  grows m -> (forall a, grows (k a)) -> grows (m ≫= k).
Proof.
  intros Hm Hk w. unfold mbind, M_bind.
  destruct (Hm w) as [Hc [l Hl]]. destruct (m w) as [[a|e] w1]; simpl in *.
  - destruct (Hk a w1) as [Hc' [l' Hl']]. split.
    + intros key v Hv. apply Hc', Hc, Hv.
    + exists (l ++ l'). rewrite Hl', Hl. symmetry. apply app_assoc.
  - split; [assumption|]. exists l. assumption.
Qed.

Lemma grows_emit e : grows (Model := Model) (emit e).
Proof. intros w. split; [trivial|]. exists [e]. reflexivity. Qed.

Lemma grows_try_except {A} (body : M Model A) handler :
  grows body -> (forall e, grows (handler e)) -> grows (try_except_Exception body handler).
Proof.
  intros Hb Hh w. unfold try_except_Exception.
  destruct (Hb w) as [Hc [l Hl]]. destruct (body w) as [[a|e] w1]; simpl in *.
  - split; [assumption|]. exists l. assumption.
  - destruct (isinstance_Exception e).
    + destruct (Hh e w1) as [Hc' [l' Hl']]. split.
      * intros key v Hv. apply Hc', Hc, Hv.
      * exists (l ++ l'). rewrite Hl', Hl. symmetry. apply app_assoc.
    + split; [assumption|]. exists l. assumption.
Qed.

Lemma grows_try_finally {A} (body : M Model A) final :
  grows body -> grows final -> grows (try_finally body final).
Proof.
  intros Hb Hf w. unfold try_finally.
  destruct (Hb w) as [Hc [l Hl]]. destruct (body w) as [r w1]; simpl in *.
  destruct (Hf w1) as [Hc' [l' Hl']]. destruct (final w1) as [[[]|e] w2]; simpl in *.
  all: split; [intros key v Hv; apply Hc', Hc, Hv|].
  all: exists (l ++ l'); rewrite Hl', Hl; symmetry; apply app_assoc.
Qed.

Lemma grows_py_os_system env command : grows (py_os_system env command).
Proof.
  intros w. unfold py_os_system. destruct (os_system env command (files w)); simpl.
  split; [trivial|]. eexists. reflexivity.
Qed.

Lemma grows_persist env f ext : grows (persist env f ext).
Proof.
  intros w. rewrite persist_run. destruct (mkstemp_inner _ _ _ _ _); simpl.
  - split; [trivial|]. eexists. reflexivity.
  - split; [trivial|]. exists []. symmetry. apply app_nil_r.
Qed.

Lemma grows_cleanup (p : string) : grows (cleanup (Model := Model) p).
Proof.
  intros w. rewrite cleanup_run. destruct (files w !! p); simpl.
  - split; [trivial|]. eexists. reflexivity.
  - split; [trivial|]. exists []. symmetry. apply app_nil_r.
Qed.

Lemma grows_load_whisper_model env (mo : string) : grows (load_whisper_model env mo).
Proof.
  intros w. split.
  - intros k v. destruct (load_whisper_model env mo w) as [r w'] eqn:E.
    apply (load_whisper_model_keeps _ _ _ _ _ _ _ E).
  - destruct (load_whisper_model env mo w) as [r w'] eqn:E. simpl.
    apply load_whisper_model_trace in E as [-> | ->].
    + exists []. symmetry. apply app_nil_r.
    + eexists. reflexivity.
Qed.

Lemma grows_py_model_transcribe env (m : Model) (audio : string) kwargs :
  grows (py_model_transcribe env m audio kwargs).
Proof.
  intros w. rewrite py_model_transcribe_run. simpl. split; [trivial|]. eexists. reflexivity.
Qed.

Create HintDb grows.
#[local] Hint Resolve grows_ret grows_raise grows_emit grows_try_except grows_try_finally
  grows_py_os_system grows_persist grows_cleanup grows_load_whisper_model
  grows_py_model_transcribe : grows.

Ltac grows :=
  repeat first
    [ solve [auto with grows]
    | progress (unfold render, st_error, st_stop, st_selectbox, st_file_uploader, st_button)
    | apply grows_bind; [|intros ?]
    | match goal with
      | |- grows (if ?b then _ else _) => destruct b
      | |- grows (match ?x with _ => _ end) => destruct x
      | |- grows (let '(_, _) := ?x in _) => destruct x
      end ].

Lemma grows_transcription_request env f (ext mo lo : string) :
  grows (transcription_request env f ext mo lo).
Proof.
  unfold transcription_request. apply grows_bind; [grows|]. intros tmp.
  apply grows_try_finally; [|grows]. apply grows_try_except; [|intros; grows].
  unfold transcribe_and_show. grows.
Qed.

Lemma grows_check_ffmpeg env : grows (check_ffmpeg env).
Proof. unfold check_ffmpeg. grows. Qed.

Lemma grows_sidebar env session : grows (sidebar env session).
Proof. unfold sidebar. grows. Qed.

Lemma grows_content env session (mo lo : string) : grows (content env session mo lo).
Proof.
  pose proof (grows_transcription_request env) as Hreq.
  unfold content, preview. grows.
Qed.

Lemma grows_main env session : grows (main env session).
Proof.
  pose proof (grows_check_ffmpeg env) as Hchk.
  pose proof (grows_sidebar env session) as Hside.
  pose proof (grows_content env session) as Hcont.
  unfold main. grows.
Qed.

Lemma cleanup_trace (p : string) w :
  trace (cleanup p w).2 =
  trace w ++ (if bool_decide (is_Some (files w !! p)) then [Call (OsUnlink p)] else []).
Proof.
  rewrite cleanup_run. destruct (files w !! p) eqn:E; simpl.
  - reflexivity.
  - symmetry. apply app_nil_r.
Qed.

(** *** The temporary file *)

(** C1. When the persist step of a request has completed, i.e. the uploaded
    bytes are in the temporary file [tmp], that file does not exist once the
    request is over, whatever the outcome [r] of the request: a transcript, a
    caught and reported exception, or an exception that [except Exception]
    lets through. *)
Theorem temp_file_gone_after_request env f (ext mo lo : string) w tmp w1 :
  persist env f ext w = (Ok tmp, w1) ->
  files w1 !! tmp = Some (getvalue f) /\
  forall r w', transcription_request env f ext mo lo w = (r, w') -> files w' !! tmp = None.
Proof.
  intros Hp. split.
  - rewrite persist_run in Hp. destruct (mkstemp_inner _ _ _ _ _); [|discriminate].
    injection Hp as <- <-. simpl. apply lookup_insert_eq.
  - intros r w'. rewrite (transcription_request_run _ _ _ _ _ _ _ _ Hp).
    destruct (transcribe_and_show env tmp mo lo w1) as [[[]|e] w2].
    + destruct (cleanup_removes tmp w2) as (w3 & E & Hgone & _). rewrite E.
      intros [= _ <-]. assumption.
    + destruct (isinstance_Exception e).
      * match goal with |- context [cleanup tmp ?x] =>
          destruct (cleanup_removes tmp x) as (w3 & E & Hgone & _) end.
        rewrite E. intros [= _ <-]. assumption.
      * destruct (cleanup_removes tmp w2) as (w3 & E & Hgone & _). rewrite E.
        intros [= _ <-]. assumption.
Qed.

(** C10. The [finally] block never raises.  When the temporary file is
    absent, [os.unlink] would raise [FileNotFoundError], and the block
    returns without calling it: the world, and with it the trace of calls,
    is unchanged.  When the file is present, the block calls [os.unlink]
    once, and the file is gone. *)
Theorem cleanup_unlinks_only_existing_file (p : string) (w : world Model) :
  match files w !! p with
  | None =>
      (os_unlink p w).1 = Raise (Exc FileNotFoundError p) /\
      cleanup p w = (Ok tt, w)
  | Some _ =>
      cleanup p w =
        (Ok tt, World (delete p (files w)) (cache w) (trace w ++ [Call (OsUnlink p)])) /\
      files (cleanup p w).2 !! p = None
  end.
Proof.
  rewrite cleanup_run. unfold os_unlink. destruct (files w !! p) eqn:E; simpl.
  - split; [reflexivity|]. apply lookup_delete_eq.
  - split; reflexivity.
Qed.

(** *** Failures of the external transcription capability *)

Lemma persist_trace env f (ext : string) w tmp w1 :
  persist env f ext w = (Ok tmp, w1) ->
  trace w1 = trace w ++ [Call (NamedTemporaryFile tmp)] /\ cache w1 = cache w.
Proof.
  rewrite persist_run. destruct (mkstemp_inner _ _ _ _ _); [|discriminate].
  intros [= <- <-]. split; reflexivity.
Qed.

(** C2, with "any exception" read as [except Exception] reads it.  When
    the load step or the transcribe step of a request raises an exception
    [e], the temporary file is removed in either case, and
    - if [e] is an instance of [Exception], the request returns normally
      (nothing propagates) and has rendered one more error box, whose text
      is the fixed failure message followed by [str(e)];
    - if [e] is not (it derives from [BaseException] only, as
      [KeyboardInterrupt], [SystemExit] and [GeneratorExit] do), the request
      ends with [e] and has rendered no error box. *)
Theorem exception_caught_and_reported env f (ext mo lo : string) w tmp w1 e w2 :
  persist env f ext w = (Ok tmp, w1) ->
  capability_raises env tmp mo lo w1 e w2 ->
  isinstance_Exception (Exc KeyboardInterrupt "") = false /\
  isinstance_Exception (Exc SystemExit "") = false /\
  isinstance_Exception (Exc GeneratorExit "") = false /\
  exists w',
    transcription_request env f ext mo lo w =
      (if isinstance_Exception e then Ok tt else Raise e, w') /\
    error_boxes (trace w') =
      error_boxes (trace w) ++
      (if isinstance_Exception e then ["❌ エラーが発生しました: " +:+ exc_str e] else []) /\
    files w' !! tmp = None.
Proof.
  intros Hp Hraise. do 3 (split; [reflexivity|]).
  rewrite (transcription_request_run _ _ _ _ _ _ _ _ Hp).
  rewrite (capability_raises_body _ _ _ _ _ _ _ Hraise).
  pose proof (capability_raises_trace _ _ _ _ _ _ _ Hraise) as Hboxes.
  destruct (persist_trace _ _ _ _ _ _ Hp) as [Ht _].
  destruct (isinstance_Exception e).
  - match goal with |- context [cleanup tmp ?x] =>
      destruct (cleanup_removes tmp x) as (w3 & E & Hgone & _);
      pose proof (cleanup_trace tmp x) as Hc end.
    rewrite E in *. exists w3. split; [reflexivity|]. split; [|assumption].
    cbn [snd trace files] in Hc. rewrite Hc. unfold error_boxes in *.
    rewrite !omap_app, Hboxes, Ht, omap_app. simpl. rewrite app_nil_r.
    destruct (bool_decide _); simpl; rewrite app_nil_r; reflexivity.
  - destruct (cleanup_removes tmp w2) as (w3 & E & Hgone & _).
    pose proof (cleanup_trace tmp w2) as Hc.
    rewrite E in *. exists w3. split; [reflexivity|]. split; [|assumption].
    cbn [snd] in Hc. rewrite Hc. unfold error_boxes in *.
    rewrite !omap_app, Hboxes, Ht, omap_app. simpl. rewrite !app_nil_r.
    destruct (bool_decide _); simpl; rewrite ?app_nil_r; reflexivity.
Qed.

(** *** The language hint *)

Lemma transcribe_options_cases (lo : string) :
  transcribe_options lo = if decide (lo = "") then ∅ else {[ "language" := lo ]}.
Proof. destruct lo; reflexivity. Qed.

(** C6. In a request that reaches the transcribe step ([persist] has
    written [tmp], the model is resolved), [model.transcribe] is called
    once, on [tmp], with the keyword arguments [transcribe_options]: no
    keyword at all when the language option is the empty (auto-detect)
    selection, and exactly [language=<hint>] otherwise, e.g. [language="ja"]. *)
Theorem language_hint_passed_or_omitted env f (ext mo lo : string) w tmp w1 m w2 :
  persist env f ext w = (Ok tmp, w1) ->
  load_whisper_model env mo w1 = (Ok m, w2) ->
  transcribe_calls (trace (transcription_request env f ext mo lo w).2) =
    transcribe_calls (trace w) ++ [(tmp, transcribe_options lo)] /\
  transcribe_options "" = ∅ /\
  (∅ : gmap string string) !! "language" = None /\
  transcribe_options "ja" = {[ "language" := "ja" ]} /\
  (lo <> "" -> transcribe_options lo = {[ "language" := lo ]} /\
               transcribe_options lo !! "language" = Some lo).
Proof.
  intros Hp Hl. split; [|split; [reflexivity|split; [reflexivity|split; [reflexivity|]]]].
  - rewrite (transcription_request_run _ _ _ _ _ _ _ _ Hp).
    rewrite transcribe_and_show_run, Hl, py_model_transcribe_run.
    assert (Hw2 : transcribe_calls (trace w2) = transcribe_calls (trace w)).
    { destruct (persist_trace _ _ _ _ _ _ Hp) as [Ht _].
      unfold transcribe_calls.
      apply load_whisper_model_trace in Hl as [-> | ->]; rewrite Ht, ?omap_app; simpl;
        rewrite ?app_nil_r; reflexivity. }
    destruct (model_transcribe env m tmp (transcribe_options lo) (files w2)) as [[res|e] fs];
      simpl; [|destruct (isinstance_Exception e); simpl].
    all: rewrite cleanup_trace; simpl; unfold transcribe_calls in *; rewrite !omap_app, Hw2;
      simpl; destruct (bool_decide _); simpl; rewrite ?app_nil_r; reflexivity.
  - intros Hne. destruct lo; [congruence|]. split; [reflexivity|].
    unfold transcribe_options. simpl. apply lookup_insert_eq.
Qed.

(** *** The model cache, continued *)

Lemma load_calls_app l1 l2 : load_calls (l1 ++ l2) = load_calls l1 ++ load_calls l2.
Proof. apply omap_app. Qed.

(** C7, with the load that fails.  A first request for a model size that
    does not find the size in the cache invokes the load path once.
    - When it returns an instance [m], the instance is stored: a second
      request for the same size, in the world the first one left or in any
      later world that still holds the entry, returns the same instance and
      changes nothing, so the load path is not invoked again; and no run of
      the script removes the entry.
    - When it raises, nothing is stored: the cache is as before, and a
      second request for the same size invokes the load path again. *)
Theorem same_model_size_loads_once env (mo : string) w :
  let first := load_whisper_model env mo w in
  let second := load_whisper_model env mo first.2 in
  (length (load_calls (trace first.2)) <= S (length (load_calls (trace w))))%nat /\
  match first.1 with
  | Ok m =>
      second = (Ok m, first.2) /\
      (forall w2, cache w2 !! mo = Some m -> load_whisper_model env mo w2 = (Ok m, w2)) /\
      (forall session, cache (main env session first.2).2 !! mo = Some m)
  | Raise e =>
      cache first.2 = cache w /\
      load_calls (trace first.2) = load_calls (trace w) ++ [(mo, device_name env)] /\
      load_calls (trace second.2) =
        load_calls (trace w) ++ [(mo, device_name env); (mo, device_name env)]
  end.
Proof.
  intros first second. subst second.
  destruct (load_whisper_model env mo w) as [r w1] eqn:H. subst first. cbn [fst snd].
  split.
  { apply load_whisper_model_trace in H as [-> | ->]; [lia|].
    rewrite load_calls_app, length_app. simpl. lia. }
  destruct r as [m|e].
  - pose proof (load_whisper_model_cached _ _ _ _ _ H) as Hc. repeat split.
    + apply load_whisper_model_hit, Hc.
    + intros w2. apply load_whisper_model_hit.
    + intros session. apply (proj1 (grows_main env session w1)), Hc.
  - rewrite load_whisper_model_run in H.
    destruct (cache w !! mo) eqn:Hmiss; [discriminate|]. cbv zeta in H.
    destruct (whisper_load_model env mo (device_name env) (files w)) as [[m|e'] fs] eqn:Hl;
      [discriminate|].
    injection H as <- <-. cbn [cache trace files].
    split; [reflexivity|]. split; [rewrite load_calls_app; reflexivity|].
    rewrite load_whisper_model_run. cbn [cache trace files]. rewrite Hmiss. cbv zeta.
    destruct (whisper_load_model env mo (device_name env) fs) as [[m|e''] fs'];
      cbn [snd trace]; rewrite !load_calls_app, <- app_assoc; reflexivity.
Qed.

(** *** The probe for the media tool *)

Lemma main_check env session w :
  main env session w =
  let w3 := World (os_system env ffmpeg_command (files w)).2 (cache w)
              (trace w ++ [Render Title; Render Markdown; Call (OsSystem ffmpeg_command)]) in
  if negb ((os_system env ffmpeg_command (files w)).1 =? 0)
  then (Raise (Exc StopException ""),
        World (files w3) (cache w3)
              (trace w ++ [Render Title; Render Markdown; Call (OsSystem ffmpeg_command);
                           Render (ErrorBox ffmpeg_missing_message)]))
  else (sidebar env session ≫= fun options => content env session options.1 options.2) w3.
Proof.
  unfold main, check_ffmpeg, py_os_system. run.
  destruct (os_system env ffmpeg_command (files w)) as [status fs]. simpl.
  rewrite <- !app_assoc. simpl.
  destruct (status =? 0); simpl; [reflexivity|].
  rewrite <- !app_assoc. reflexivity.
Qed.

Lemma main_starts_with_check env session w :
  exists rest,
    trace (main env session w).2 =
    trace w ++ [Render Title; Render Markdown; Call (OsSystem ffmpeg_command)] ++ rest.
Proof.
  rewrite main_check. simpl. destruct (negb _); simpl.
  - eexists [_]. reflexivity.
  - match goal with |- context [(?m ≫= ?k) ?w3] =>
      assert (Hg : grows (m ≫= k)) end.
    { apply grows_bind; [apply grows_sidebar|]. intros a. apply grows_content. }
    match goal with |- context [(?m ≫= ?k) ?w3] => destruct (Hg w3) as [_ [l Hl]] end.
    exists l. rewrite Hl. simpl. rewrite <- app_assoc. reflexivity.
Qed.

(** C3. In every run of the script the probe for the media tool comes
    before the upload control: whatever precedes a rendered upload control
    contains the probe.  When the probe fails, the run renders the error and
    stops there with the script-control exception: besides the title, the
    introduction, the probe and the error nothing happens, so no upload
    control is rendered, no model is loaded and nothing is transcribed. *)
Theorem no_upload_when_ffmpeg_is_missing env session w :
  (forall l1 t l2,
     trace (main env session w).2 = trace w ++ l1 ++ Render (FileUploader t) :: l2 ->
     Call (OsSystem ffmpeg_command) ∈ l1) /\
  ((os_system env ffmpeg_command (files w)).1 <> 0 ->
   (main env session w).1 = Raise (Exc StopException "") /\
   trace (main env session w).2 =
     trace w ++ [Render Title; Render Markdown; Call (OsSystem ffmpeg_command);
                 Render (ErrorBox ffmpeg_missing_message)] /\
   upload_controls (trace (main env session w).2) = upload_controls (trace w) /\
   load_calls (trace (main env session w).2) = load_calls (trace w) /\
   transcribe_calls (trace (main env session w).2) = transcribe_calls (trace w)).
Proof.
  split.
  - intros l1 t l2. destruct (main_starts_with_check env session w) as [rest ->].
    intros H. apply app_inv_head in H.
    destruct l1 as [|a [|b [|c l1]]]; simpl in H; try discriminate.
    injection H as _ _ <- _. do 2 apply list_elem_of_further. apply list_elem_of_here.
  - intros Hstatus. rewrite main_check. simpl.
    destruct (Z.eqb_spec (os_system env ffmpeg_command (files w)).1 0) as [E|_];
      [contradiction|].
    simpl. unfold upload_controls, load_calls, transcribe_calls. rewrite !omap_app. simpl.
    rewrite !app_nil_r. repeat split; reflexivity.
Qed.

(** *** The extension of the upload *)

(** Line 135 yields the text after the last dot of the name, lowered. *)
Lemma file_ext_of_name env f (stem ext : string) :
  name f = stem +:+ "." +:+ ext -> Py.contains "." ext = false ->
  file_ext_of env f = str_lower env ext.
Proof.
  intros Hname Hext. unfold file_ext_of. rewrite Hname.
  change (stem +:+ "." +:+ ext) with (stem +:+ String "." ext).
  rewrite (PyFacts.split_last_item _ _ Hext). reflexivity.
Qed.

Lemma preview_run f (file_ext : string) (w : world Model) :
  preview f file_ext w =
  (Ok tt,
   World (files w) (cache w)
     (trace w ++
      [Render Subheader; Render InfoBox;
       Render (if bool_decide (file_ext ∈ video_extensions) then Video f
               else Audio f ("audio/" +:+ file_ext))])).
Proof.
  unfold preview. run. destruct (bool_decide _); run; rewrite <- !app_assoc; reflexivity.
Qed.

(** C9. For an uploaded file the script takes the last item of the name
    split at the dots, which is the text after the last dot, and lowers it
    with [str.lower]; when the result is one of mp4, mov, mkv, webm the
    preview is a video player, and otherwise an audio player whose format is
    ["audio/"] followed by that lowered extension.  The run of the page
    renders this player right after the upload control, the preview heading
    and the file information. *)
Theorem preview_player_follows_extension env session (mo lo : string) w f :
  uploaded_file session = Some f ->
  let file_ext := str_lower env (Py.last_item (Py.split "." (name f))) in
  let player :=
    if bool_decide (file_ext ∈ ["mp4"; "mov"; "mkv"; "webm"]) then Video f
    else Audio f ("audio/" +:+ file_ext) in
  (forall stem ext : string,
     name f = stem +:+ "." +:+ ext -> Py.contains "." ext = false ->
     file_ext = str_lower env ext) /\
  preview f file_ext w =
    (Ok tt, World (files w) (cache w)
              (trace w ++ [Render Subheader; Render InfoBox; Render player])) /\
  exists rest,
    trace (content env session mo lo w).2 =
    trace w ++ [Render Columns; Render Subheader; Render (FileUploader upload_types);
                Render Subheader; Render InfoBox; Render player;
                Render Markdown; Render Button] ++ rest.
Proof.
  intros Hup file_ext player. split; [|split; [apply preview_run|]].
  { intros stem ext Hname Hext. apply (file_ext_of_name env f stem ext Hname Hext). }
  unfold content, st_file_uploader, st_button. run. rewrite Hup.
  change (file_ext_of env f) with file_ext. rewrite preview_run. simpl.
  rewrite <- !app_assoc. simpl.
  destruct (transcribe_button session).
  - simpl.
    match goal with |- context [transcription_request env f ?e mo lo ?w0] =>
      destruct (grows_transcription_request env f e mo lo w0) as [_ [l Hl]];
      rewrite Hl end.
    simpl. exists (Render Spinner :: l). rewrite <- !app_assoc. reflexivity.
  - simpl. exists []. reflexivity.
Qed.

(** C8, with the suffix as the script computes it.  When the persist step
    of an upload named [stem.ext] completes with the path [tmp]: no file had
    that path before, the file now holds the uploaded bytes, no other file
    changed, and the path is the temporary directory, ["tmp"], one of the
    random names, a dot and [ext] lowered by [str.lower]. *)
Theorem persist_keeps_extension env f w tmp w1 (stem ext : string) :
  persist env f (file_ext_of env f) w = (Ok tmp, w1) ->
  name f = stem +:+ "." +:+ ext -> Py.contains "." ext = false ->
  files w !! tmp = None /\
  files w1 !! tmp = Some (getvalue f) /\
  (forall p : string, p <> tmp -> files w1 !! p = files w !! p) /\
  exists n,
    n ∈ candidate_names env /\
    tmp = gettempdir env +:+ "tmp" +:+ n +:+ "." +:+ str_lower env ext.
Proof.
  intros Hp Hname Hext. rewrite persist_run in Hp.
  destruct (mkstemp_inner _ _ _ _ _) as [path|] eqn:E; [|discriminate].
  injection Hp as <- <-. destruct (mkstemp_inner_fresh _ _ _ _ _ _ E) as [Hfresh [n [Hn Hpath]]].
  simpl. split; [assumption|]. split; [apply lookup_insert_eq|].
  split; [intros p Hne; apply lookup_insert_ne; congruence|].
  rewrite (file_ext_of_name _ _ _ _ Hname Hext) in Hpath.
  exists n. split; assumption.
Qed.

End Properties.

(** ** The timestamps *)

Lemma format_timestamp_fields x :
  format_timestamp x =
  Py.format_d 2 (Qfloor (x / 60) / 60) +:+ ":" +:+
  Py.format_d 2 (Qfloor (x / 60) mod 60) +:+ ":" +:+
  Py.format_f 6 3 (Py.divmod x 60).2.
Proof.
  unfold format_timestamp.
  change (Py.divmod x 60) with (inject_Z (Qfloor (x / 60)), (Py.divmod x 60).2).
  cbv iota beta.
  set (q := Qfloor (x / 60)).
  change (Py.divmod (inject_Z q) 60)
    with (inject_Z (Qfloor (inject_Z q / 60)), (inject_Z q - inject_Z (Qfloor (inject_Z q / 60)) * 60)%Q).
  cbv iota beta. rewrite PyFacts.int_inject_Z, PyFacts.Qfloor_div_60.
  cbn [Qnum Qden inject_Z]. rewrite Z.mul_1_r.
  replace (Py.int _) with (q mod 60); [reflexivity|].
  unfold Py.int, Qminus, Qplus, Qopp, Qmult, inject_Z. cbn [Qnum Qden].
  change (Z.pos (1 * 1)) with 1. rewrite Z.quot_1_r, Z.mod_eq by lia. lia.
Qed.

(** C4, on floats.  [format_timestamp] maps 0 to "00:00:00.000" and 3661.5
    to "01:01:01.500".  For every finite float that is not negative the
    result is a string [hh:mm:ss.fff] whose four fields consist of decimal
    digits: [hh] is the decimal numeral of a number padded with zeros to two
    digits (so it has at least two), [mm] has exactly two digits and denotes
    a number below 60, [ss] has exactly two and [fff] exactly three, the
    three decimals.  For an infinity and for NaN the function raises
    [ValueError] and returns no string. *)
Theorem format_timestamp_padded :
  Float.format_timestamp (Float.Finite 0) = Ok "00:00:00.000" /\
  Float.format_timestamp (Float.Finite (7323 # 2)) = Ok "01:01:01.500" /\
  (forall x : Q, (0 <= x)%Q -> (x <= Float.max_float)%Q ->
     exists hh mm ss fff : string,
       Float.format_timestamp (Float.Finite x) =
         Ok (hh +:+ ":" +:+ mm +:+ ":" +:+ ss +:+ "." +:+ fff) /\
       all_digits hh = true /\ (2 <= String.length hh)%nat /\
       hh = Py.zfill 2 (Py.str_nat (digits_value hh)) /\
       all_digits mm = true /\ String.length mm = 2%nat /\
       mm = Py.zfill 2 (Py.str_nat (digits_value mm)) /\ digits_value mm < 60 /\
       all_digits ss = true /\ String.length ss = 2%nat /\
       all_digits fff = true /\ String.length fff = 3%nat) /\
  (forall negative : bool,
     Float.format_timestamp (Float.Infinity negative) =
       Raise (Exc ValueError "cannot convert float NaN to integer")) /\
  Float.format_timestamp Float.NaN =
    Raise (Exc ValueError "cannot convert float NaN to integer").
Proof.
  split; [vm_compute; reflexivity|]. split; [vm_compute; reflexivity|].
  split; [|split; [intros []; vm_compute; reflexivity|vm_compute; reflexivity]].
  intros x Hx Hmax.
  destruct (FloatFacts.format_timestamp_finite x Hx Hmax) as (h & m & n & -> & Hh & Hm & Hn).
  assert (Hip : 0 <= n / 1000 < 100).
  { split; [apply Z.div_pos; lia|apply Z.div_lt_upper_bound; lia]. }
  pose proof (Z.mod_pos_bound n 1000 ltac:(lia)) as Hfp.
  exists (Py.zfill 2 (Py.str_nat h)), (Py.zfill 2 (Py.str_nat m)),
    (Py.zfill 2 (Py.str_nat (n / 1000))), (Py.zfill 3 (Py.str_nat (n mod 1000))).
  destruct (PyFacts.zfill_spec 2 (Py.str_nat h)) as (-> & -> & ->).
  destruct (PyFacts.zfill_spec 2 (Py.str_nat m)) as (-> & -> & ->).
  destruct (PyFacts.zfill_spec 2 (Py.str_nat (n / 1000))) as (-> & _ & ->).
  destruct (PyFacts.zfill_spec 3 (Py.str_nat (n mod 1000))) as (-> & _ & ->).
  destruct (PyFacts.str_nat_spec h Hh) as (-> & -> & ?).
  destruct (PyFacts.str_nat_spec m) as (-> & -> & ?); [lia|].
  destruct (PyFacts.str_nat_spec (n / 1000)) as (-> & _ & ?); [lia|].
  destruct (PyFacts.str_nat_spec (n mod 1000)) as (-> & _ & ?); [lia|].
  pose proof (PyFacts.str_nat_length m 2
                ltac:(change (10 ^ Z.of_nat 2) with 100; lia) ltac:(lia)).
  pose proof (PyFacts.str_nat_length (n / 1000) 2
                ltac:(change (10 ^ Z.of_nat 2) with 100; lia) ltac:(lia)).
  pose proof (PyFacts.str_nat_length (n mod 1000) 3
                ltac:(change (10 ^ Z.of_nat 3) with 1000; lia) ltac:(lia)).
  repeat split; try reflexivity; lia.
Qed.

(** Above 2^55 seconds the steps of [divmod] round, and the timestamp of
    the float is not the one exact arithmetic gives; 10^20 is a float. *)
Remark format_timestamp_rounds :
  Float.round (inject_Z (10 ^ 20)) = Float.Finite (inject_Z (10 ^ 20)) /\
  Float.format_timestamp (Float.Finite (inject_Z (10 ^ 20))) =
    Ok "27777777777777780:12:40.000" /\
  format_timestamp (inject_Z (10 ^ 20)) = "27777777777777777:46:40.000".
Proof. repeat split; vm_compute; reflexivity. Qed.

(** ** The timestamped transcript *)

Lemma segments_loop_from (segs : list Segment) : forall table_data timestamp_text,
  fold_left segment_step segs (table_data, timestamp_text) =
  (table_data ++
     map (fun s => {[ "開始" := format_timestamp (seg_start s);
                      "終了" := format_timestamp (seg_end s);
                      "テキスト" := seg_text s ]}) segs,
   timestamp_text +:+
     foldr (fun s rest =>
              "[" +:+ format_timestamp (seg_start s) +:+ " --> " +:+
              format_timestamp (seg_end s) +:+ "] " +:+ seg_text s +:+
              String "010"%char "" +:+ rest) "" segs).
Proof.
  induction segs as [|s segs IH]; intros table_data timestamp_text.
  - cbn [fold_left map foldr]. rewrite app_nil_r, PyFacts.append_nil_r. reflexivity.
  - cbn [fold_left map foldr]. unfold segment_step at 2. rewrite IH.
    rewrite <- app_assoc. f_equal. rewrite PyFacts.append_assoc. f_equal.
    unfold timestamp_line. rewrite !PyFacts.append_assoc. reflexivity.
Qed.

(** C5. For the segments (0, 1, "a") and (1, 2.5, "b") the loop builds the
    two-line transcript of the specification; for every list of segments it
    builds, in the order of the list, one line
    ["[" start " --> " end "] " text newline] per segment, with [start] and
    [end] formatted by [format_timestamp]; and this text is the data of the
    second download button of a finished request. *)
Theorem timestamp_text_lines :
  (segments_loop [ {| seg_start := 0; seg_end := 1; seg_text := "a" |};
                   {| seg_start := 1; seg_end := 5 # 2; seg_text := "b" |} ]).2 =
    "[00:00:00.000 --> 00:00:01.000] a" +:+ String "010"%char "" +:+
    "[00:00:01.000 --> 00:00:02.500] b" +:+ String "010"%char "" /\
  forall segs : list Segment,
    (segments_loop segs).2 =
      foldr (fun s rest =>
               "[" +:+ format_timestamp (seg_start s) +:+ " --> " +:+
               format_timestamp (seg_end s) +:+ "] " +:+ seg_text s +:+
               String "010"%char "" +:+ rest) "" segs /\
    forall result, segments result = segs ->
      List.last (result_widgets result) (Render Title) =
        Render (DownloadButton (segments_loop segs).2).
Proof.
  split; [vm_compute; reflexivity|]. intros segs. split.
  - unfold segments_loop. rewrite segments_loop_from. reflexivity.
  - intros result <-. reflexivity.
Qed.

(** ** The properties on the concrete hosts *)

Lemma temp_file_gone_after_request_witness :
  let w1 := (persist Demo.failing_host Demo.talk "mp3" Demo.start).2 in
  let w' := (transcription_request Demo.failing_host Demo.talk "mp3" "base" "ja" Demo.start).2 in
  files w1 !! "/tmp/tmpabcd1234.mp3" = Some (getvalue Demo.talk) /\
  files w' !! "/tmp/tmpabcd1234.mp3" = None.
Proof.
  pose proof (temp_file_gone_after_request Demo.failing_host Demo.talk "mp3" "base" "ja"
                Demo.start "/tmp/tmpabcd1234.mp3"
                (persist Demo.failing_host Demo.talk "mp3" Demo.start).2
                ltac:(vm_compute; reflexivity)) as [H1 H2].
  split; [exact H1|]. eapply H2. apply surjective_pairing.
Defined.

Lemma exception_caught_and_reported_witness :
  exists w',
    transcription_request Demo.failing_host Demo.talk "mp3" "base" "ja" Demo.start = (Ok tt, w') /\
    error_boxes (trace w') = ["❌ エラーが発生しました: Failed to load audio"] /\
    files w' !! "/tmp/tmpabcd1234.mp3" = None.
Proof.
  apply (exception_caught_and_reported Demo.failing_host Demo.talk "mp3" "base" "ja"
           Demo.start "/tmp/tmpabcd1234.mp3"
           (persist Demo.failing_host Demo.talk "mp3" Demo.start).2
           (Exc RuntimeError "Failed to load audio")
           (transcribe_and_show Demo.failing_host "/tmp/tmpabcd1234.mp3" "base" "ja"
              (persist Demo.failing_host Demo.talk "mp3" Demo.start).2).2).
  - vm_compute. reflexivity.
  - right. exists ("base", "cpu").
    exists (load_whisper_model Demo.failing_host "base"
              (persist Demo.failing_host Demo.talk "mp3" Demo.start).2).2.
    split; vm_compute; reflexivity.
Defined.

(** C2 as the specification states it, for any exception: the load of the
    model is interrupted from the keyboard.  The load step of the request
    raises [KeyboardInterrupt], which is not an instance of [Exception]; the
    request ends with that exception instead of returning, and no error box
    is rendered (the temporary file is removed all the same). *)
Lemma keyboard_interrupt_propagates :
  let w1 := (persist Demo.interrupted_host Demo.talk "mp3" Demo.start).2 in
  let e := Exc KeyboardInterrupt "" in
  let run := transcription_request Demo.interrupted_host Demo.talk "mp3" "base" "ja" Demo.start in
  persist Demo.interrupted_host Demo.talk "mp3" Demo.start = (Ok "/tmp/tmpabcd1234.mp3", w1) /\
  capability_raises Demo.interrupted_host "/tmp/tmpabcd1234.mp3" "base" "ja" w1 e
    (load_whisper_model Demo.interrupted_host "base" w1).2 /\
  run.1 = Raise e /\
  error_boxes (trace run.2) = [] /\
  files run.2 !! "/tmp/tmpabcd1234.mp3" = None.
Proof.
  cbv zeta. split; [vm_compute; reflexivity|]. split.
  - left. vm_compute. reflexivity.
  - repeat split; vm_compute; reflexivity.
Qed.

Lemma no_upload_when_ffmpeg_is_missing_witness :
  (main Demo.bare_host Demo.click Demo.start).1 = Raise (Exc StopException "") /\
  upload_controls (trace (main Demo.bare_host Demo.click Demo.start).2) = [] /\
  transcribe_calls (trace (main Demo.bare_host Demo.click Demo.start).2) = [] /\
  Call (OsSystem ffmpeg_command) ∈
    [Render Title; Render Markdown; Call (OsSystem ffmpeg_command); Render Header;
     Render (Selectbox get_available_models); Render (Selectbox language_options);
     Render Markdown; Render InfoBox; Render WarningBox; Render Markdown; Render Markdown;
     Render Columns; Render Subheader].
Proof.
  destruct (no_upload_when_ffmpeg_is_missing Demo.bare_host Demo.click Demo.start) as [_ H].
  destruct (H ltac:(vm_compute; discriminate)) as (H1 & _ & H2 & _ & H3).
  split; [exact H1|]. split; [exact H2|]. split; [exact H3|].
  apply (proj1 (no_upload_when_ffmpeg_is_missing Demo.host Demo.click Demo.start) _
           upload_types
           (skipn 14 (trace (main Demo.host Demo.click Demo.start).2))).
  vm_compute. reflexivity.
Defined.

Lemma format_timestamp_padded_witness :
  exists hh mm ss fff : string,
    Float.format_timestamp (Float.Finite (inject_Z (10 ^ 20))) =
      Ok (hh +:+ ":" +:+ mm +:+ ":" +:+ ss +:+ "." +:+ fff) /\
    (2 <= String.length hh)%nat /\ String.length mm = 2%nat /\
    String.length ss = 2%nat /\ String.length fff = 3%nat.
Proof.
  destruct (proj1 (proj2 (proj2 format_timestamp_padded)) (inject_Z (10 ^ 20))
              ltac:(vm_compute; discriminate) ltac:(vm_compute; discriminate))
    as (hh & mm & ss & fff & H & _ & Hh & _ & _ & Hm & _ & _ & _ & Hs & _ & Hf).
  exists hh, mm, ss, fff. repeat split; assumption.
Defined.

(** C4 as the specification states it, for every non-negative input: the
    positive infinity is a float and is not negative.  [divmod] of it gives
    NaN twice, and [int] of NaN raises: there is no string, and no field. *)
Lemma infinity_has_no_timestamp :
  Float.lt_0 (Float.Infinity false) = false /\
  Float.div_mod (Float.Infinity false) (Float.Finite 60) = (Float.NaN, Float.NaN) /\
  Float.format_timestamp (Float.Infinity false) =
    Raise (Exc ValueError "cannot convert float NaN to integer").
Proof. repeat split; vm_compute; reflexivity. Qed.

Lemma language_hint_passed_or_omitted_witness :
  transcribe_calls
    (trace (transcription_request Demo.host Demo.talk "mp3" "base" "ja" Demo.start).2) =
    [("/tmp/tmpabcd1234.mp3", {[ "language" := "ja" ]})] /\
  transcribe_calls
    (trace (transcription_request Demo.host Demo.talk "mp3" "base" "" Demo.start).2) =
    [("/tmp/tmpabcd1234.mp3", ∅)].
Proof.
  split.
  - apply (language_hint_passed_or_omitted Demo.host Demo.talk "mp3" "base" "ja" Demo.start
             "/tmp/tmpabcd1234.mp3" (persist Demo.host Demo.talk "mp3" Demo.start).2
             ("base", "cpu")
             (load_whisper_model Demo.host "base"
                (persist Demo.host Demo.talk "mp3" Demo.start).2).2);
      vm_compute; reflexivity.
  - apply (language_hint_passed_or_omitted Demo.host Demo.talk "mp3" "base" "" Demo.start
             "/tmp/tmpabcd1234.mp3" (persist Demo.host Demo.talk "mp3" Demo.start).2
             ("base", "cpu")
             (load_whisper_model Demo.host "base"
                (persist Demo.host Demo.talk "mp3" Demo.start).2).2);
      vm_compute; reflexivity.
Defined.

(** C7 as the specification states it: the host is offline, so
    [whisper.load_model] raises.  Two requests for the size "base" in one
    process invoke the load path twice. *)
Lemma failed_load_is_repeated :
  let first := load_whisper_model Demo.offline_host "base" Demo.start in
  let second := load_whisper_model Demo.offline_host "base" first.2 in
  first.1 = Raise (Exc RuntimeError "download failed") /\
  second.1 = Raise (Exc RuntimeError "download failed") /\
  load_calls (trace second.2) = [("base", "cpu"); ("base", "cpu")].
Proof. cbv zeta. repeat split; vm_compute; reflexivity. Qed.

Lemma persist_keeps_extension_witness :
  let w1 := (persist Demo.host Demo.talk (file_ext_of Demo.host Demo.talk) Demo.start).2 in
  files Demo.start !! "/tmp/tmpabcd1234.mp3" = None /\
  files w1 !! "/tmp/tmpabcd1234.mp3" = Some ["x"%byte; "y"%byte] /\
  exists n, "/tmp/tmpabcd1234.mp3" = "/tmp/" +:+ "tmp" +:+ n +:+ "." +:+ "mp3".
Proof.
  cbv zeta.
  destruct (persist_keeps_extension Demo.host Demo.talk Demo.start "/tmp/tmpabcd1234.mp3"
              (persist Demo.host Demo.talk (file_ext_of Demo.host Demo.talk) Demo.start).2
              "Talk" "MP3" ltac:(vm_compute; reflexivity) eq_refl eq_refl)
    as (H1 & H2 & _ & n & _ & H3).
  split; [exact H1|]. split; [exact H2|]. exists n. exact H3.
Defined.

(** C8 as the specification states it: the upload is named [Talk.MP3].
    The text after the last dot of the name is [MP3]; the temporary file
    is [/tmp/tmpabcd1234.mp3], which ends in [.mp3] and not in [.MP3]. *)
Lemma upper_case_extension_is_lowered :
  let tmp := "/tmp/tmpabcd1234.mp3" in
  name Demo.talk = "Talk.MP3" /\
  Py.last_item (Py.split "." (name Demo.talk)) = "MP3" /\
  (persist Demo.host Demo.talk (file_ext_of Demo.host Demo.talk) Demo.start).1 = Ok tmp /\
  Py.endswith tmp ".MP3" = false /\
  Py.endswith tmp ".mp3" = true.
Proof. cbv zeta. repeat split; vm_compute; reflexivity. Qed.

Lemma preview_player_follows_extension_witness :
  preview Demo.talk "mp3" Demo.start =
    (Ok tt, World ∅ ∅ [Render Subheader; Render InfoBox; Render (Audio Demo.talk "audio/mp3")]).
Proof.
  exact (proj1 (proj2 (preview_player_follows_extension Demo.host Demo.click "base" "ja"
                         Demo.start Demo.talk eq_refl))).
Defined.

Lemma same_model_size_loads_once_witness :
  let w1 := (load_whisper_model Demo.host "base" Demo.start).2 in
  load_whisper_model Demo.host "base" w1 = (Ok ("base", "cpu"), w1) /\
  load_calls (trace (load_whisper_model Demo.offline_host "base"
                       (load_whisper_model Demo.offline_host "base" Demo.start).2).2) =
    [("base", "cpu"); ("base", "cpu")].
Proof.
  cbv zeta. split.
  - exact (proj1 (proj2 (same_model_size_loads_once Demo.host "base" Demo.start))).
  - exact (proj2 (proj2 (proj2 (same_model_size_loads_once Demo.offline_host "base" Demo.start)))).
Defined.

(** ** What a request and a run do, event by event *)

Section Protocol.

Context {Model : Type}.
Implicit Types (env : Env Model) (w : world Model) (f : UploadedFile).

Ltac flat := repeat (rewrite <- app_assoc); simpl.

Lemma cleanup_cache (p : string) w : cache (cleanup p w).2 = cache w.
Proof. rewrite cleanup_run. destruct (files w !! p); reflexivity. Qed.

Lemma transcription_request_events env f (ext mo lo : string) w tmp w1 :
  persist env f ext w = (Ok tmp, w1) ->
  exists loaded o unlinked w',
    transcription_request env f ext mo lo w = (outcome_result o, w') /\
    trace w' = trace w ++ request_events tmp mo (device_name env) lo loaded o unlinked /\
    (loaded = true <-> cache w !! mo = None) /\
    (forall e, o = LoadFailed e -> cache w' = cache w).
Proof.
  intros Hp. rewrite (transcription_request_run _ _ _ _ _ _ _ _ Hp).
  destruct (persist_trace _ _ _ _ _ _ Hp) as [Ht Hc].
  rewrite transcribe_and_show_run, load_whisper_model_run, Hc.
  unfold request_events. rewrite <- transcribe_options_cases.
  destruct (cache w !! mo) as [m|] eqn:Hhit.
  - (* the cache holds the model *)
    rewrite py_model_transcribe_run.
    destruct (model_transcribe env m tmp (transcribe_options lo) (files w1)) as [[res|e] fs];
      cbn [fst snd].
    + exists false, (Transcribed res). eexists. eexists. split; [reflexivity|].
      split; [|split; [split; discriminate|discriminate]].
      rewrite cleanup_trace. cbn [trace files]. rewrite Ht. flat. reflexivity.
    + exists false, (TranscribeFailed e). unfold outcome_result, outcome_events, handler_events.
      destruct (isinstance_Exception e); eexists; eexists; (split; [reflexivity|]);
        (split; [|split; [split; discriminate|discriminate]]);
        rewrite cleanup_trace; cbn [trace files]; rewrite Ht; flat; reflexivity.
  - (* the model is loaded *)
    cbv zeta.
    destruct (whisper_load_model env mo (device_name env) (files w1)) as [[m|e] fs1].
    + rewrite py_model_transcribe_run. cbn [files cache trace].
      destruct (model_transcribe env m tmp (transcribe_options lo) fs1) as [[res|e] fs];
        cbn [fst snd].
      * exists true, (Transcribed res). eexists. eexists. split; [reflexivity|].
        split; [|split; [split; trivial|discriminate]].
        rewrite cleanup_trace. cbn [trace files]. rewrite Ht. flat. reflexivity.
      * exists true, (TranscribeFailed e).
        unfold outcome_result, outcome_events, handler_events.
        destruct (isinstance_Exception e); eexists; eexists; (split; [reflexivity|]);
          (split; [|split; [split; trivial|discriminate]]);
          rewrite cleanup_trace; cbn [trace files]; rewrite Ht; flat; reflexivity.
    + exists true, (LoadFailed e). unfold outcome_result, outcome_events, handler_events.
      destruct (isinstance_Exception e); eexists; eexists; (split; [reflexivity|]);
        (split; [|split; [split; trivial|intros e' _; rewrite cleanup_cache; reflexivity]]);
        rewrite cleanup_trace; cbn [trace files]; rewrite Ht; flat; reflexivity.
Qed.

(** *** The page *)

Ltac step :=
  repeat (unfold mbind, M_bind, mret, M_ret, raise, render, emit, st_error, st_stop,
            st_selectbox, st_file_uploader, st_button; simpl).

Lemma sidebar_run env session w :
  sidebar env session w =
  (Ok (model_option session, language_option session),
   World (files w) (cache w) (trace w ++ sidebar_events (cuda_is_available env))).
Proof.
  unfold sidebar, sidebar_events. step. destruct (cuda_is_available env); step; flat; reflexivity.
Qed.

Lemma content_run env session (mo lo : string) w :
  content env session mo lo w =
  match uploaded_file session with
  | None =>
      (Ok tt, World (files w) (cache w) (trace w ++ upload_events ++ hint_events))
  | Some f =>
      if transcribe_button session
      then transcription_request env f (file_ext_of env f) mo lo
             (World (files w) (cache w)
                (trace w ++ upload_events ++ preview_events env f ++ [Render Spinner]))
      else (Ok tt, World (files w) (cache w) (trace w ++ upload_events ++ preview_events env f))
  end.
Proof.
  unfold content, upload_events, hint_events, preview_events, preview_player. step.
  destruct (uploaded_file session) as [f|]; [|step; flat; reflexivity].
  rewrite preview_run. step. destruct (transcribe_button session); step; flat; reflexivity.
Qed.

Lemma main_run env session w :
  (os_system env ffmpeg_command (files w)).1 = 0 ->
  main env session w =
  content env session (model_option session) (language_option session)
    (World (os_system env ffmpeg_command (files w)).2 (cache w)
       (trace w ++ opening_events ++ sidebar_events (cuda_is_available env))).
Proof.
  intros Hok. rewrite main_check, Hok. cbv zeta. cbn [Z.eqb negb].
  unfold mbind at 1. unfold M_bind. rewrite sidebar_run. cbn [fst snd files cache trace].
  unfold opening_events, ffmpeg_command. flat. reflexivity.
Qed.

Lemma transcription_request_persist_fails env f (ext mo lo : string) w e w' :
  persist env f ext w = (Raise e, w') ->
  transcription_request env f ext mo lo w = (Raise e, w') /\
  w' = w /\ e = Exc FileExistsError "[Errno 17] No usable temporary file name found".
Proof.
  intros Hp. split.
  - unfold transcription_request. unfold mbind at 1. unfold M_bind. rewrite Hp. reflexivity.
  - rewrite persist_run in Hp. destruct (mkstemp_inner _ _ _ _ _); [discriminate|].
    injection Hp as <- <-. split; reflexivity.
Qed.

Lemma calls_request_events (tmp mo dev lo : string) loaded o unlinked :
  calls (request_events tmp mo dev lo loaded o unlinked) =
  [NamedTemporaryFile tmp] ++
  (if loaded then [WhisperLoadModel mo dev] else []) ++
  (if match o with LoadFailed _ => false | _ => true end
   then [ModelTranscribe tmp
           (if decide (lo = "") then ∅ else {[ "language" := lo ]})] else []) ++
  (if unlinked then [OsUnlink tmp] else []).
Proof.
  unfold request_events, calls. rewrite !omap_app.
  destruct loaded, unlinked, o as [e|e|res]; unfold outcome_events, handler_events;
    try destruct (isinstance_Exception e); reflexivity.
Qed.

Lemma page_widgets_request_events (tmp mo dev lo : string) loaded o unlinked :
  upload_controls (request_events tmp mo dev lo loaded o unlinked) = [] /\
  buttons (request_events tmp mo dev lo loaded o unlinked) = [] /\
  expanders (request_events tmp mo dev lo loaded o unlinked) = [].
Proof.
  unfold request_events, upload_controls, buttons, expanders. rewrite !omap_app.
  destruct loaded, unlinked, o as [e|e|res]; unfold outcome_events, handler_events;
    try destruct (isinstance_Exception e); repeat split; reflexivity.
Qed.

(** X1. A run in which the probe succeeds and either no file is chosen or
    the button is not pressed returns normally after rendering the page: the
    title and the probe, the sidebar (with the warning exactly on a host
    without CUDA), the upload column, and then the hint when there is no
    file, or the preview of the file and the button.  The probe is the only
    call: the cache is as before, and the files are as the probe left them. *)
Theorem run_without_click env session w :
  (os_system env ffmpeg_command (files w)).1 = 0 ->
  uploaded_file session = None \/ transcribe_button session = false ->
  main env session w =
  (Ok tt,
   World (os_system env ffmpeg_command (files w)).2 (cache w)
     (trace w ++ opening_events ++ sidebar_events (cuda_is_available env) ++ upload_events ++
      match uploaded_file session with
      | Some f => preview_events env f
      | None => hint_events
      end)).
Proof.
  intros Hok Hidle. rewrite (main_run _ _ _ Hok), content_run. cbn [files cache trace].
  destruct (uploaded_file session) as [f|].
  - destruct Hidle as [?| ->]; [discriminate|]. flat. reflexivity.
  - flat. reflexivity.
Qed.

(** X2. The calls of a run, in order.  Every run makes exactly one probe
    for the media tool, first.  Nothing follows unless the probe succeeds, a
    file is chosen and the button is pressed; then the run makes, in this
    order and each at most once: the creation of a temporary file whose name
    is the temporary directory, ["tmp"], a random name, a dot and the
    lowercased extension of the upload; the load of the selected model size
    on ["cuda"] or ["cpu"] by the availability of CUDA; the transcription of
    that temporary file with the language option; and the removal of that
    temporary file.  No other file is removed and nothing is called twice. *)
Theorem run_call_protocol env session w :
  exists rest,
    calls (trace (main env session w).2) =
      calls (trace w) ++ OsSystem "ffmpeg -version > NUL 2>&1" :: rest /\
    (rest = [] \/
     exists f n tmp loaded transcribed unlinked,
       (os_system env ffmpeg_command (files w)).1 = 0 /\
       uploaded_file session = Some f /\ transcribe_button session = true /\
       tmp = gettempdir env +:+ "tmp" +:+ n +:+ "." +:+ file_ext_of env f /\
       rest =
         [NamedTemporaryFile tmp] ++
         (if loaded : bool
          then [WhisperLoadModel (model_option session)
                  (if cuda_is_available env then "cuda" else "cpu")] else []) ++
         (if transcribed : bool
          then [ModelTranscribe tmp
                  (if decide (language_option session = "") then ∅
                   else {[ "language" := language_option session ]})] else []) ++
         (if unlinked : bool then [OsUnlink tmp] else [])).
Proof.
  assert (Hpage : forall l,
    calls ((trace w ++ opening_events ++ sidebar_events (cuda_is_available env)) ++
           upload_events ++ l) =
    calls (trace w) ++ OsSystem "ffmpeg -version > NUL 2>&1" :: calls l).
  { intros l. unfold calls. rewrite !omap_app. rewrite <- app_assoc. f_equal.
    unfold sidebar_events. destruct (cuda_is_available env); reflexivity. }
  destruct (Z.eq_dec (os_system env ffmpeg_command (files w)).1 0) as [Hok|Hbad].
  - rewrite (main_run _ _ _ Hok), content_run. cbn [files cache trace].
    destruct (uploaded_file session) as [f|] eqn:Hup.
    + destruct (transcribe_button session) eqn:Hbtn.
      * match goal with |- context [transcription_request env f _ _ _ ?w0] =>
          set (W := w0) end.
        destruct (persist env f (file_ext_of env f) W) as [[tmp|e] w1] eqn:Hp.
        -- destruct (transcription_request_events env f (file_ext_of env f)
                       (model_option session) (language_option session) W tmp w1 Hp)
             as (loaded & o & unlinked & w' & -> & Ht & _).
           cbn [snd]. rewrite Ht. unfold W. cbn [trace].
           rewrite <- (app_assoc _ _ (request_events _ _ _ _ _ _ _)).
           rewrite <- (app_assoc upload_events), Hpage.
           eexists. split; [reflexivity|].
           right. rewrite persist_run in Hp.
           destruct (mkstemp_inner _ _ _ _ _) as [path|] eqn:Hm; [|discriminate].
           injection Hp as -> _.
           destruct (mkstemp_inner_fresh _ _ _ _ _ _ Hm) as [_ [n [_ Hn]]].
           exists f, n, tmp, loaded, (match o with LoadFailed _ => false | _ => true end),
             unlinked.
           repeat (split; [first [assumption|reflexivity]|]).
           unfold calls at 1. rewrite !omap_app.
           change (omap _ (preview_events env f)) with (@nil call). cbn [app omap].
           apply calls_request_events.
        -- destruct (transcription_request_persist_fails env f (file_ext_of env f)
                       (model_option session) (language_option session) W e w1 Hp)
             as (-> & -> & _).
           cbn [snd]. unfold W. cbn [trace]. exists []. split; [|left; reflexivity].
           rewrite Hpage. reflexivity.
      * exists []. split; [|left; reflexivity]. cbn [snd trace]. rewrite Hpage. reflexivity.
    + exists []. split; [|left; reflexivity]. cbn [snd trace]. rewrite Hpage. reflexivity.
  - rewrite main_check. cbv zeta.
    destruct (Z.eqb_spec (os_system env ffmpeg_command (files w)).1 0) as [?|_];
      [contradiction|].
    cbn [negb snd trace]. exists []. split; [|left; reflexivity].
    unfold calls. rewrite omap_app. reflexivity.
Qed.

Lemma page_widgets_preview_events env f :
  upload_controls (preview_events env f) = [] /\
  buttons (preview_events env f) = [Button] /\
  expanders (preview_events env f) = [].
Proof.
  unfold preview_events, preview_player. destruct (bool_decide _); repeat split; reflexivity.
Qed.

(** X3. In a run whose probe succeeds the upload control is rendered
    exactly once, with the nine accepted types; the button is rendered
    exactly when a file is chosen, and the usage hint exactly when none is:
    whatever the request does afterwards adds no control. *)
Theorem page_controls_rendered_once env session w :
  (os_system env ffmpeg_command (files w)).1 = 0 ->
  upload_controls (trace (main env session w).2) =
    upload_controls (trace w) ++
    [["mp3"; "wav"; "m4a"; "ogg"; "flac"; "mp4"; "mov"; "mkv"; "webm"]] /\
  buttons (trace (main env session w).2) =
    buttons (trace w) ++
    match uploaded_file session with Some _ => [Button] | None => [] end /\
  expanders (trace (main env session w).2) =
    expanders (trace w) ++
    match uploaded_file session with Some _ => [] | None => [Expander] end.
Proof.
  intros Hok.
  assert (Hpage : forall l,
    upload_controls ((trace w ++ opening_events ++ sidebar_events (cuda_is_available env)) ++
                     upload_events ++ l) =
      upload_controls (trace w) ++ upload_types :: upload_controls l /\
    buttons ((trace w ++ opening_events ++ sidebar_events (cuda_is_available env)) ++
             upload_events ++ l) = buttons (trace w) ++ buttons l /\
    expanders ((trace w ++ opening_events ++ sidebar_events (cuda_is_available env)) ++
               upload_events ++ l) = expanders (trace w) ++ expanders l).
  { intros l. unfold upload_controls, buttons, expanders. rewrite !omap_app.
    rewrite <- !app_assoc. unfold sidebar_events.
    destruct (cuda_is_available env); repeat split; reflexivity. }
  assert (Happ : forall l1 l2,
    upload_controls (l1 ++ l2) = upload_controls l1 ++ upload_controls l2 /\
    buttons (l1 ++ l2) = buttons l1 ++ buttons l2 /\
    expanders (l1 ++ l2) = expanders l1 ++ expanders l2).
  { intros l1 l2. repeat split; apply omap_app. }
  rewrite (main_run _ _ _ Hok), content_run. cbn [files cache trace].
  destruct (uploaded_file session) as [f|] eqn:Hup.
  - destruct (page_widgets_preview_events env f) as (Pu & Pb & Pe).
    destruct (transcribe_button session) eqn:Hbtn.
    + match goal with |- context [transcription_request env f _ _ _ ?w0] =>
        set (W := w0) end.
      destruct (persist env f (file_ext_of env f) W) as [[tmp|e] w1] eqn:Hp.
      * destruct (transcription_request_events env f (file_ext_of env f)
                    (model_option session) (language_option session) W tmp w1 Hp)
          as (loaded & o & unlinked & w' & -> & Ht & _).
        cbn [snd]. rewrite Ht. unfold W. cbn [trace].
        rewrite <- (app_assoc _ _ (request_events _ _ _ _ _ _ _)).
        rewrite <- (app_assoc upload_events).
        destruct (Hpage ((preview_events env f ++ [Render Spinner]) ++
                         request_events tmp (model_option session) (device_name env)
                           (language_option session) loaded o unlinked))
          as (-> & -> & ->).
        destruct (page_widgets_request_events tmp (model_option session) (device_name env)
                    (language_option session) loaded o unlinked) as (Hu & Hb & He).
        destruct (Happ (preview_events env f ++ [Render Spinner])
                    (request_events tmp (model_option session) (device_name env)
                       (language_option session) loaded o unlinked)) as (-> & -> & ->).
        destruct (Happ (preview_events env f) [Render Spinner]) as (-> & -> & ->).
        rewrite Hu, Hb, He, Pu, Pb, Pe. repeat split; reflexivity.
      * destruct (transcription_request_persist_fails env f (file_ext_of env f)
                    (model_option session) (language_option session) W e w1 Hp)
          as (-> & -> & _).
        cbn [snd]. unfold W. cbn [trace].
        destruct (Hpage (preview_events env f ++ [Render Spinner])) as (-> & -> & ->).
        destruct (Happ (preview_events env f) [Render Spinner]) as (-> & -> & ->).
        rewrite Pu, Pb, Pe. repeat split; reflexivity.
    + cbn [snd trace]. destruct (Hpage (preview_events env f)) as (-> & -> & ->).
      rewrite Pu, Pb, Pe. repeat split; reflexivity.
  - cbn [snd trace]. destruct (Hpage hint_events) as (-> & -> & ->).
    repeat split; reflexivity.
Qed.

Lemma cleanup_files (p : string) w : files (cleanup p w).2 = delete p (files w).
Proof.
  rewrite cleanup_run. destruct (files w !! p) eqn:E; [reflexivity|].
  simpl. symmetry. apply delete_id, E.
Qed.

Lemma transcribe_and_show_files env (tmp mo lo : string) w :
  keeps_files env -> files (transcribe_and_show env tmp mo lo w).2 = files w.
Proof.
  intros [Hload Htr]. rewrite transcribe_and_show_run, load_whisper_model_run.
  assert (Hstep : forall m w0,
    files (match py_model_transcribe env m tmp (transcribe_options lo) w0 with
           | (Ok res, w2) =>
               (Ok tt, World (files w2) (cache w2) (trace w2 ++ result_widgets res))
           | (Raise e, w2) => (Raise e, w2)
           end).2 = files w0).
  { intros m w0. rewrite py_model_transcribe_run.
    pose proof (Htr m tmp (transcribe_options lo) (files w0)) as K.
    destruct (model_transcribe env m tmp (transcribe_options lo) (files w0)) as [[res|e] fs];
      exact K. }
  destruct (cache w !! mo) as [m|]; [apply Hstep|].
  cbv zeta. pose proof (Hload mo (device_name env) (files w)) as K.
  destruct (whisper_load_model env mo (device_name env) (files w)) as [[m|e] fs];
    cbn [snd] in K; subst fs; [|reflexivity].
  rewrite Hstep. reflexivity.
Qed.

(** X4. On a host whose collaborators leave the file system as they find
    it, a request whose persist step completes leaves the file system as it
    found it, whatever the outcome of the [try] block: the temporary file,
    which did not exist before, is the only file the request creates, and
    the request removes it. *)
Theorem files_as_found env f (ext mo lo : string) w tmp w1 :
  keeps_files env ->
  persist env f ext w = (Ok tmp, w1) ->
  files w !! tmp = None /\
  files w1 = <[tmp := getvalue f]> (files w) /\
  files (transcription_request env f ext mo lo w).2 = files w.
Proof.
  intros Hkeep Hp.
  rewrite (transcription_request_run _ _ _ _ _ _ _ _ Hp).
  pose proof (transcribe_and_show_files env tmp mo lo w1 Hkeep) as Hbody.
  rewrite persist_run in Hp.
  destruct (mkstemp_inner _ _ _ _ _) as [path|] eqn:Hm; [|discriminate].
  injection Hp as -> <-. cbn [files] in Hbody |- *.
  destruct (mkstemp_inner_fresh _ _ _ _ _ _ Hm) as [Hfresh _].
  split; [assumption|]. split; [reflexivity|].
  destruct (transcribe_and_show env tmp mo lo _) as [[[]|e] w2]; cbn [snd] in *;
    [|destruct (isinstance_Exception e)]; cbn [snd];
    rewrite cleanup_files; cbn [files]; rewrite Hbody; apply delete_insert_id, Hfresh.
Qed.

(** X5. The persist step is outside the [try] block.  When the temporary
    file cannot be created, the request ends with that exception although it
    is an instance of [Exception]: the handler of line 235 does not see it,
    and the world is as before, so no error box is rendered, nothing is
    loaded and nothing is transcribed. *)
Theorem persist_failure_escapes env f (ext mo lo : string) w e w' :
  persist env f ext w = (Raise e, w') ->
  transcription_request env f ext mo lo w = (Raise e, w) /\
  isinstance_Exception e = true.
Proof.
  intros Hp.
  destruct (transcription_request_persist_fails env f ext mo lo w e w' Hp) as (-> & -> & ->).
  split; reflexivity.
Qed.

Lemma results_shown_app l1 l2 : results_shown (l1 ++ l2) = results_shown l1 ++ results_shown l2.
Proof. apply omap_app. Qed.

Lemma error_boxes_app l1 l2 : error_boxes (l1 ++ l2) = error_boxes l1 ++ error_boxes l2.
Proof. apply omap_app. Qed.

(** X6. When the model is resolved and the transcription returns, the
    request returns normally and has rendered, in this order, the success
    box, the tabs, the text area with [result["text"]] as returned, the table,
    and the two download buttons, the first with [result["text"]] as returned
    and the second with the timestamped transcript; it has rendered no error
    box. *)
Theorem transcript_shown_unmodified env f (ext mo lo : string) w tmp w1 m w2 res w3 :
  persist env f ext w = (Ok tmp, w1) ->
  load_whisper_model env mo w1 = (Ok m, w2) ->
  py_model_transcribe env m tmp (transcribe_options lo) w2 = (Ok res, w3) ->
  exists w',
    transcription_request env f ext mo lo w = (Ok tt, w') /\
    results_shown (trace w') =
      results_shown (trace w) ++
      [SuccessBox; Tabs; TextArea (text res);
       Dataframe (segments_loop (segments res)).1;
       DownloadButton (text res);
       DownloadButton (segments_loop (segments res)).2] /\
    error_boxes (trace w') = error_boxes (trace w).
Proof.
  intros Hp Hl Ht. rewrite (transcription_request_run _ _ _ _ _ _ _ _ Hp).
  rewrite transcribe_and_show_run, Hl, Ht. eexists. split; [reflexivity|].
  rewrite cleanup_trace. cbn [trace files].
  rewrite py_model_transcribe_run in Ht. injection Ht as _ <-. cbn [trace].
  destruct (persist_trace _ _ _ _ _ _ Hp) as [Htr _].
  rewrite !results_shown_app, !error_boxes_app.
  assert (Hw2 : results_shown (trace w2) = results_shown (trace w) /\
                error_boxes (trace w2) = error_boxes (trace w)).
  { apply load_whisper_model_trace in Hl as [-> | ->]; rewrite Htr;
      rewrite ?results_shown_app, ?error_boxes_app; cbn; rewrite ?app_nil_r; split; reflexivity. }
  destruct Hw2 as [-> ->].
  destruct (bool_decide _); cbn; rewrite ?app_nil_r; split; reflexivity.
Qed.

(** X7. When the load step or the transcribe step of a request raises,
    whether the handler catches the exception or not, the request renders
    none of the result widgets: no success box, no text area, no table and no
    download button. *)
Theorem no_result_after_failure env f (ext mo lo : string) w tmp w1 e w2 :
  persist env f ext w = (Ok tmp, w1) ->
  capability_raises env tmp mo lo w1 e w2 ->
  results_shown (trace (transcription_request env f ext mo lo w).2) = results_shown (trace w).
Proof.
  intros Hp Hraise.
  rewrite (transcription_request_run _ _ _ _ _ _ _ _ Hp).
  rewrite (capability_raises_body _ _ _ _ _ _ _ Hraise).
  destruct (persist_trace _ _ _ _ _ _ Hp) as [Htr _].
  assert (Hw2 : results_shown (trace w2) = results_shown (trace w)).
  { destruct Hraise as [H | (m & w1' & H1 & H2)].
    - apply load_whisper_model_trace in H as [-> | ->]; rewrite Htr;
        rewrite ?results_shown_app; cbn; rewrite ?app_nil_r; reflexivity.
    - rewrite py_model_transcribe_run in H2. injection H2 as _ <-. cbn [trace].
      apply load_whisper_model_trace in H1 as [-> | ->]; rewrite Htr;
        rewrite ?results_shown_app; cbn; rewrite ?app_nil_r; reflexivity. }
  destruct (isinstance_Exception e); cbn [snd]; rewrite cleanup_trace; cbn [trace files];
    rewrite ?results_shown_app, Hw2; destruct (bool_decide _); cbn; rewrite ?app_nil_r;
    reflexivity.
Qed.

End Protocol.

(** *** The table *)

(** X8. The table of the timestamp tab has one row per segment, in the
    order of the segments; the row of a segment has exactly the three keys
    of line 209-213, with the formatted start, the formatted end and the text
    of that segment. *)
Theorem table_has_a_row_per_segment (segs : list Segment) :
  length (segments_loop segs).1 = length segs /\
  forall (i : nat) (s : Segment), segs !! i = Some s ->
    exists row : gmap string string,
      (segments_loop segs).1 !! i = Some row /\
      row !! "開始" = Some (format_timestamp (seg_start s)) /\
      row !! "終了" = Some (format_timestamp (seg_end s)) /\
      row !! "テキスト" = Some (seg_text s) /\
      size row = 3%nat.
Proof.
  unfold segments_loop. rewrite segments_loop_from. cbn [fst app]. split.
  - apply length_map.
  - intros i s Hi. eexists. split.
    + rewrite list_lookup_fmap, Hi. reflexivity.
    + split; [|split; [|split]].
      * apply lookup_insert_eq.
      * rewrite lookup_insert_ne by discriminate. apply lookup_insert_eq.
      * rewrite !lookup_insert_ne by discriminate. apply lookup_singleton_eq.
      * rewrite !map_size_insert_None, map_size_singleton; [reflexivity|..].
        -- apply lookup_singleton_ne. discriminate.
        -- rewrite lookup_insert_ne by discriminate. apply lookup_singleton_ne. discriminate.
Qed.

(** *** The extension *)

Lemma split_last_item_without_sep sep s :
  Py.contains sep (Py.last_item (Py.split sep s)) = false.
Proof.
  induction s as [|c s IH]; [reflexivity|]. cbn [Py.split].
  destruct (Ascii.eqb c sep) eqn:E.
  - unfold Py.last_item in *. rewrite PyFacts.last_cons_nonempty by apply PyFacts.split_nonempty.
    exact IH.
  - pose proof (PyFacts.split_nonempty sep s) as Hne.
    destruct (Py.split sep s) as [|w ws]; [congruence|].
    unfold Py.last_item in *. destruct ws as [|w' ws].
    + cbn [List.last] in *. cbn [Py.contains]. rewrite E, IH. reflexivity.
    + exact IH.
Qed.

Lemma split_tail sep s :
  match Py.split sep s with
  | [w] => s = w
  | l => exists stem, s = stem +:+ String sep (Py.last_item l)
  end.
Proof.
  induction s as [|c s IH]; [reflexivity|]. cbn [Py.split].
  pose proof (PyFacts.split_nonempty sep s) as Hne.
  destruct (Ascii.eqb_spec c sep) as [->|_].
  - destruct (Py.split sep s) as [|w [|w' ws]]; [congruence| |].
    + subst s. exists "". reflexivity.
    + destruct IH as [stem ->]. exists (String sep stem). reflexivity.
  - destruct (Py.split sep s) as [|w [|w' ws]]; [congruence| |].
    + subst s. reflexivity.
    + destruct IH as [stem ->]. exists (String c stem). reflexivity.
Qed.

(** X9. The extension of line 135 is [str.lower] of a part [t] of the
    name that contains no dot: the name itself when it has no dot, and
    otherwise what follows its last dot, which is empty for a name that ends
    in a dot. *)
Theorem file_ext_is_lowered_tail {Model : Type} (env : Env Model) f :
  exists t : string,
    file_ext_of env f = str_lower env t /\
    Py.contains "." t = false /\
    (if Py.contains "." (name f) then exists stem, name f = stem +:+ "." +:+ t
     else name f = t) /\
    (forall stem, name f = stem +:+ "." -> t = "").
Proof.
  exists (Py.last_item (Py.split "." (name f))).
  split; [reflexivity|]. split; [apply split_last_item_without_sep|]. split.
  - destruct (Py.contains "." (name f)) eqn:Hdot.
    + pose proof (split_tail "." (name f)) as H.
      destruct (Py.split "." (name f)) as [|w [|w' ws]] eqn:Hs.
      * exact H.
      * exfalso. subst w.
        pose proof (split_last_item_without_sep "." (name f)) as K.
        rewrite Hs in K. cbn in K. congruence.
      * exact H.
    + rewrite (PyFacts.split_without_sep _ _ Hdot). reflexivity.
  - intros stem ->. apply (PyFacts.split_last_item stem "" eq_refl).
Qed.

(** *** The removal *)

(** X10. The [finally] block touches one path only: every other file is
    as before and so is the model cache; and running the block a second time
    changes nothing and does not raise. *)
Theorem cleanup_touches_one_file {Model : Type} (p : string) (w : world Model) :
  (forall q : string, q <> p -> files (cleanup p w).2 !! q = files w !! q) /\
  cache (cleanup p w).2 = cache w /\
  cleanup p (cleanup p w).2 = (Ok tt, (cleanup p w).2).
Proof.
  split; [|split].
  - intros q Hq. rewrite cleanup_files. apply lookup_delete_ne. congruence.
  - apply cleanup_cache.
  - rewrite (cleanup_run p (cleanup p w).2), cleanup_files, lookup_delete_eq. reflexivity.
Qed.

(** *** The labels *)

(** X13. The labels of the language selectbox: each of the nine options
    has an entry in the dictionary of [format_func], the nine labels are
    pairwise different, and a value that is not an option is shown as
    itself (the fallback of [dict.get]). *)
Theorem language_options_have_labels :
  Forall (fun x => is_Some (language_names !! x)) language_options /\
  NoDup (map format_func language_options) /\
  (forall x : string, x ∉ language_options -> format_func x = x).
Proof.
  split; [|split].
  - repeat constructor; eexists; reflexivity.
  - refine (bool_decide_unpack (NoDup (map format_func language_options)) _).
    vm_compute. exact I.
  - intros x Hx. unfold format_func.
    assert (language_names !! x = None) as ->; [|reflexivity].
    unfold language_options in Hx. rewrite !not_elem_of_cons in Hx.
    destruct Hx as (? & ? & ? & ? & ? & ? & ? & ? & ? & _).
    unfold language_names. rewrite !lookup_insert_ne by congruence.
    apply lookup_singleton_ne. congruence.
Qed.

(** *** Timestamps read back *)

Lemma format_timestamp_parts (x : Q) :
  (0 <= x)%Q ->
  let q := Qfloor (x / 60) in
  let n := Py.round_half_even (Qabs (Py.divmod x 60).2 * inject_Z 1000) in
  format_timestamp x =
    Py.zfill 2 (Py.str_nat (q / 60)) +:+ ":" +:+ Py.zfill 2 (Py.str_nat (q mod 60)) +:+ ":" +:+
    Py.zfill 2 (Py.str_nat (n / 1000)) +:+ "." +:+ Py.zfill 3 (Py.str_nat (n mod 1000)) /\
  0 <= q /\ 0 <= n <= 60000.
Proof.
  intros Hx q n. rewrite format_timestamp_fields.
  destruct (PyFacts.divmod_60_bounds x Hx) as [Hq Hs]. fold q in Hq |- *.
  destruct (PyFacts.format_f_seconds _ Hs) as [Hn ->]. fold n in Hn |- *.
  assert (Hh : 0 <= q / 60) by (apply Z.div_pos; lia).
  pose proof (Z.mod_pos_bound q 60 ltac:(lia)) as Hm.
  unfold Py.format_d.
  destruct (Z.ltb_spec (q / 60) 0) as [?|_]; [lia|].
  destruct (Z.ltb_spec (q mod 60) 0) as [?|_]; [lia|].
  repeat split; [assumption|lia|lia].
Qed.

Lemma field_digits width k :
  0 <= k ->
  all_digits (Py.zfill width (Py.str_nat k)) = true /\
  digits_value (Py.zfill width (Py.str_nat k)) = k.
Proof.
  intros Hk. destruct (PyFacts.zfill_spec width (Py.str_nat k)) as (-> & -> & _).
  destruct (PyFacts.str_nat_spec k Hk) as (-> & -> & _). split; reflexivity.
Qed.

(** X14. Below 2^55 seconds the float computation is the exact one.  No
    step of [divmod(x, 60)] rounds: the quotient is the floor of [x / 60]
    and the remainder is [x] minus 60 times the quotient; and the timestamp
    of the float is the timestamp that exact arithmetic gives. *)
Theorem float_timestamp_is_exact (x : Q) :
  (0 <= x)%Q -> (x < inject_Z (2 ^ 55))%Q ->
  (exists s,
     Float.div_mod (Float.Finite x) (Float.Finite 60) =
       (Float.Finite (inject_Z (Qfloor (x / 60))), Float.Finite s) /\
     (s == x - inject_Z (Qfloor (x / 60)) * 60)%Q) /\
  Float.format_timestamp (Float.Finite x) = Ok (format_timestamp x).
Proof.
  intros Hx Hlt. split; [|apply float_format_timestamp_exact; assumption].
  assert (Hlt' : (x < Float.pow2 55)%Q)
    by (rewrite <- FloatFacts.pow2_inject by lia; exact Hlt).
  destruct (FloatFacts.div_mod_60_exact x Hx Hlt') as (s & E & Hs).
  exists s. split; [exact E|].
  destruct Hs as [->|[-> Hz]]; [reflexivity|].
  symmetry. exact Hz.
Qed.

(** X11. Reading a timestamp back.  For every non-negative number of
    seconds below 2^55 the function returns a string, and its four digit
    fields, read as [3600 hh + 60 mm + ss + fff/1000], give back the input
    up to half a millisecond. *)
Theorem timestamp_reads_back (x : Q) :
  (0 <= x)%Q -> (x < inject_Z (2 ^ 55))%Q ->
  exists hh mm ss fff : string,
    Float.format_timestamp (Float.Finite x) =
      Ok (hh +:+ ":" +:+ mm +:+ ":" +:+ ss +:+ "." +:+ fff) /\
    all_digits hh = true /\ all_digits mm = true /\
    all_digits ss = true /\ all_digits fff = true /\
    (Qabs (timestamp_seconds hh mm ss fff - x) <= 1 # 2000)%Q.
Proof.
  intros Hx Hlt. rewrite (float_format_timestamp_exact x Hx Hlt).
  destruct (format_timestamp_parts x Hx) as (Hfmt & Hq & Hn).
  destruct (PyFacts.divmod_60_bounds x Hx) as [_ Hs].
  pose proof (PyFacts.round_half_even_nearest_Q _ (proj1 Hs)) as Hnear.
  set (q := Qfloor (x / 60)) in *.
  set (n := Py.round_half_even (Qabs (Py.divmod x 60).2 * inject_Z 1000)) in *.
  assert (Hh : 0 <= q / 60) by (apply Z.div_pos; lia).
  pose proof (Z.mod_pos_bound q 60 ltac:(lia)) as Hm.
  assert (Hip : 0 <= n / 1000) by (apply Z.div_pos; lia).
  pose proof (Z.mod_pos_bound n 1000 ltac:(lia)) as Hfp.
  destruct (field_digits 2 (q / 60) Hh) as [Ah Vh].
  destruct (field_digits 2 (q mod 60) (proj1 Hm)) as [Am Vm].
  destruct (field_digits 2 (n / 1000) Hip) as [As Vs].
  destruct (field_digits 3 (n mod 1000) (proj1 Hfp)) as [Af Vf].
  eexists _, _, _, _. split; [rewrite Hfmt; reflexivity|].
  repeat (split; [assumption|]).
  unfold timestamp_seconds. rewrite Vh, Vm, Vs, Vf.
  pose proof (Z.div_mod q 60 ltac:(lia)) as Dq.
  pose proof (Z.div_mod n 1000 ltac:(lia)) as Dn.
  change ((Py.divmod x 60).2) with (x - inject_Z q * 60)%Q in Hnear.
  apply Qabs_Qle_condition in Hnear. apply Qabs_Qle_condition.
  destruct x as [a d].
  unfold Qle, Qminus, Qplus, Qopp, Qmult, inject_Z in *. cbn [Qnum Qden] in *.
  rewrite ?Pos2Z.inj_mul in *.
  change (Z.pos 1) with 1 in *. change (Z.pos 2) with 2 in *.
  change (Z.pos 1000) with 1000 in *. change (Z.pos 2000) with 2000 in *.
  set (D := Z.pos d) in *. assert (0 < D) by (unfold D; lia).
  set (S := n / 1000) in *. set (F := n mod 1000) in *.
  set (H' := q / 60) in *. set (M := q mod 60) in *.
  clearbody S F H' M n q. nia.
Qed.

(** X12. The rounding of the seconds is not carried into the minutes.
    When what remains after the whole minutes is more than 59.9995 seconds,
    the seconds field reads [60.000], while the hour and the minute fields
    still denote the whole hours and the whole minutes of the input. *)
Theorem seconds_field_reads_60 (x : Q) :
  (0 <= x)%Q ->
  (119999 # 2000 < x - inject_Z (Qfloor (x / 60)) * 60)%Q ->
  exists hh mm : string,
    format_timestamp x = hh +:+ ":" +:+ mm +:+ ":60.000" /\
    all_digits hh = true /\ digits_value hh = Qfloor (x / 60) / 60 /\
    all_digits mm = true /\ digits_value mm = Qfloor (x / 60) mod 60.
Proof.
  intros Hx Hlate. destruct (format_timestamp_parts x Hx) as (Hfmt & Hq & Hn).
  destruct (PyFacts.divmod_60_bounds x Hx) as [_ Hs].
  pose proof (PyFacts.round_half_even_nearest_Q _ (proj1 Hs)) as Hnear.
  set (q := Qfloor (x / 60)) in *.
  set (n := Py.round_half_even (Qabs (Py.divmod x 60).2 * inject_Z 1000)) in *.
  assert (Hh : 0 <= q / 60) by (apply Z.div_pos; lia).
  pose proof (Z.mod_pos_bound q 60 ltac:(lia)) as Hm.
  destruct (field_digits 2 (q / 60) Hh) as [Ah Vh].
  destruct (field_digits 2 (q mod 60) (proj1 Hm)) as [Am Vm].
  assert (E : n = 60000).
  { change ((Py.divmod x 60).2) with (x - inject_Z q * 60)%Q in Hnear.
    apply Qabs_Qle_condition in Hnear. clear Hfmt Hs Ah Vh Am Vm.
    destruct x as [a d].
    unfold Qle, Qlt, Qminus, Qplus, Qopp, Qmult, inject_Z in *. cbn [Qnum Qden] in *.
    rewrite ?Pos2Z.inj_mul in *.
    change (Z.pos 1) with 1 in *. change (Z.pos 2) with 2 in *.
    change (Z.pos 2000) with 2000 in *.
    set (D := Z.pos d) in *. assert (0 < D) by (unfold D; lia).
    clearbody n q. nia. }
  rewrite E in Hfmt. eexists _, _. split; [exact Hfmt|]. repeat split; assumption.
Qed.

Lemma float_timestamp_is_exact_witness :
  Float.format_timestamp (Float.Finite (7323 # 2)) = Ok (format_timestamp (7323 # 2)).
Proof.
  exact (proj2 (float_timestamp_is_exact (7323 # 2) ltac:(vm_compute; discriminate)
                  ltac:(vm_compute; reflexivity))).
Defined.

Lemma timestamp_reads_back_witness :
  exists hh mm ss fff : string,
    Float.format_timestamp (Float.Finite (7323 # 2)) =
      Ok (hh +:+ ":" +:+ mm +:+ ":" +:+ ss +:+ "." +:+ fff) /\
    (Qabs (timestamp_seconds hh mm ss fff - (7323 # 2)) <= 1 # 2000)%Q.
Proof.
  destruct (timestamp_reads_back (7323 # 2) ltac:(vm_compute; discriminate)
              ltac:(vm_compute; reflexivity))
    as (hh & mm & ss & fff & H & _ & _ & _ & _ & Hr).
  exists hh, mm, ss, fff. split; [exact H|exact Hr].
Defined.

Lemma seconds_field_reads_60_witness :
  exists hh mm : string, format_timestamp (599999 # 10000) = hh +:+ ":" +:+ mm +:+ ":60.000".
Proof.
  destruct (seconds_field_reads_60 (599999 # 10000) ltac:(vm_compute; discriminate)
              ltac:(vm_compute; reflexivity)) as (hh & mm & H & _).
  exists hh, mm. exact H.
Defined.

(** ** These properties on the concrete hosts *)

Lemma run_without_click_witness :
  main Demo.host Demo.idle Demo.start =
    (Ok tt, World ∅ ∅ (opening_events ++ sidebar_events false ++ upload_events ++ hint_events)) /\
  main Demo.host Demo.chosen Demo.start =
    (Ok tt, World ∅ ∅ (opening_events ++ sidebar_events false ++ upload_events ++
                        preview_events Demo.host Demo.talk)).
Proof.
  split.
  - exact (run_without_click Demo.host Demo.idle Demo.start eq_refl (or_introl eq_refl)).
  - exact (run_without_click Demo.host Demo.chosen Demo.start eq_refl (or_intror eq_refl)).
Defined.

Lemma page_controls_rendered_once_witness :
  upload_controls (trace (main Demo.host Demo.click Demo.start).2) = [upload_types] /\
  buttons (trace (main Demo.host Demo.click Demo.start).2) = [Button] /\
  expanders (trace (main Demo.host Demo.click Demo.start).2) = [].
Proof.
  exact (page_controls_rendered_once Demo.host Demo.click Demo.start eq_refl).
Defined.

Lemma files_as_found_witness :
  files (persist Demo.failing_host Demo.talk "mp3" Demo.start).2 =
    {[ "/tmp/tmpabcd1234.mp3" := getvalue Demo.talk ]} /\
  files (transcription_request Demo.failing_host Demo.talk "mp3" "base" "ja" Demo.start).2 = ∅.
Proof.
  destruct (files_as_found Demo.failing_host Demo.talk "mp3" "base" "ja" Demo.start
              "/tmp/tmpabcd1234.mp3" (persist Demo.failing_host Demo.talk "mp3" Demo.start).2
              (conj (fun _ _ _ => eq_refl) (fun _ _ _ _ => eq_refl))
              ltac:(vm_compute; reflexivity)) as (_ & H1 & H2).
  split; [exact H1|exact H2].
Defined.

Lemma persist_failure_escapes_witness :
  transcription_request Demo.host Demo.talk "mp3" "base" "ja" Demo.crowded =
    (Raise (Exc FileExistsError "[Errno 17] No usable temporary file name found"), Demo.crowded) /\
  isinstance_Exception (Exc FileExistsError "[Errno 17] No usable temporary file name found") = true.
Proof.
  exact (persist_failure_escapes Demo.host Demo.talk "mp3" "base" "ja" Demo.crowded
           (Exc FileExistsError "[Errno 17] No usable temporary file name found") Demo.crowded
           ltac:(vm_compute; reflexivity)).
Defined.

Lemma transcript_shown_unmodified_witness :
  exists w',
    transcription_request Demo.host Demo.talk "mp3" "base" "ja" Demo.start = (Ok tt, w') /\
    results_shown (trace w') =
      [SuccessBox; Tabs; TextArea "a b";
       Dataframe (segments_loop (segments Demo.a_b)).1;
       DownloadButton "a b";
       DownloadButton (segments_loop (segments Demo.a_b)).2] /\
    error_boxes (trace w') = [].
Proof.
  exact (transcript_shown_unmodified Demo.host Demo.talk "mp3" "base" "ja" Demo.start
           "/tmp/tmpabcd1234.mp3"
           (persist Demo.host Demo.talk "mp3" Demo.start).2
           ("base", "cpu")
           (load_whisper_model Demo.host "base"
              (persist Demo.host Demo.talk "mp3" Demo.start).2).2
           Demo.a_b
           (py_model_transcribe Demo.host ("base", "cpu") "/tmp/tmpabcd1234.mp3"
              (transcribe_options "ja")
              (load_whisper_model Demo.host "base"
                 (persist Demo.host Demo.talk "mp3" Demo.start).2).2).2
           ltac:(vm_compute; reflexivity) ltac:(vm_compute; reflexivity)
           ltac:(vm_compute; reflexivity)).
Defined.

Lemma no_result_after_failure_witness :
  results_shown
    (trace (transcription_request Demo.failing_host Demo.talk "mp3" "base" "ja" Demo.start).2)
  = [].
Proof.
  apply (no_result_after_failure Demo.failing_host Demo.talk "mp3" "base" "ja" Demo.start
           "/tmp/tmpabcd1234.mp3"
           (persist Demo.failing_host Demo.talk "mp3" Demo.start).2
           (Exc RuntimeError "Failed to load audio")
           (transcribe_and_show Demo.failing_host "/tmp/tmpabcd1234.mp3" "base" "ja"
              (persist Demo.failing_host Demo.talk "mp3" Demo.start).2).2).
  - vm_compute. reflexivity.
  - right. exists ("base", "cpu").
    exists (load_whisper_model Demo.failing_host "base"
              (persist Demo.failing_host Demo.talk "mp3" Demo.start).2).2.
    split; vm_compute; reflexivity.
Defined.
